(** * rare-buy-bot: a shallow embedding of [main.py]

    The bot polls a Uniswap-style pair contract for Swap events, formats each
    buy as a Telegram message and relays it to one chat.  This file embeds
    the functions of [main.py] ([get_latest_eth_price],
    [format_swap_message], [monitor_buys], [start], [stop], [help_command])
    as state-passing functions over an explicit world, and proves the
    properties of the specification about them.

    Conventions of the embedding:
    - a Python [int] is a [Z]; a Python [float] is an IEEE-754 binary64 value,
      represented by [spec_float] with [prec = 53] and [emax = 1024], and the
      operations on it follow CPython's ([long_true_divide], [float_div],
      [float_floor_div], [PyLong_AsDouble], the ['f'] format);
    - a Python [str] is a [string] holding its UTF-8 bytes; building the
      string of markers, whose length the event sets, can fail as
      [str * int] does in CPython ([OverflowError] past [sys.maxsize],
      [MemoryError] when the machine does not grant it); the allocations of
      the interpreter are otherwise taken to succeed;
    - a raised exception is the [Raise] result of an error monad; the effects
      performed before the exception stay in the world, as in Python.  Every
      exception of the model is an [Exception], the class [monitor_buys]
      catches;
    - the module-level names the functions read are fields of the world's
      globals, bound as the module body binds them: [TOKEN_DECIMALS] and
      [CHAT_ID] to what [os.getenv] returned;
    - every call that leaves the process (Telegram, the RPC node, the logger)
      is recorded, in order, in the world's trace; what the outside answers is
      given by an environment that sees the whole history.  A call to the node
      or to Telegram may fail, and the client library then raises; the logger
      never does;
    - the libraries are web3.py 6 ([create_filter (fromBlock=...)], a
      [HexBytes.hex] with the [0x] prefix) and python-telegram-bot 20 (an
      [int] for [Chat.id]);
    - each coroutine runs to completion: interleaving at [await] points is
      not modelled. *)

From Stdlib Require Import ZArith List Bool Lia.
From Stdlib.Strings Require Import String Ascii Byte.
From Stdlib Require Import SpecFloat DecimalString.
Import ListNotations.

Local Open Scope string_scope.
Local Open Scope list_scope.
Local Open Scope Z_scope.

Infix "+++" := String.append (right associativity, at level 60).

(** ** Python values and exceptions *)

(** The dynamically typed values that reach an operator whose behaviour
    depends on the type: what [os.getenv] returns ([None] or a [str]) and
    integers. *)
Inductive value : Type :=
| VNone
| VInt (z : Z)
| VStr (s : string).

Inductive exn : Type :=
| TypeError
| ZeroDivisionError
| OverflowError
| ValueError
| IndexError
| AttributeError
| MemoryError
| RemoteError (msg : string).

Inductive res (A : Type) : Type :=
| Ok (a : A)
| Raise (e : exn).
Arguments Ok {A} a.
Arguments Raise {A} e.

Definition res_bind {A B} (r : res A) (k : A -> res B) : res B :=
  match r with
  | Ok a => k a
  | Raise e => Raise e
  end.

(** [a == b] on the values above: an [int] and a [str] never compare equal. *)
Definition py_eq (a b : value) : bool :=
  match a, b with
  | VNone, VNone => true
  | VInt x, VInt y => x =? y
  | VStr s, VStr t => String.eqb s t
  | _, _ => false
  end.

(** ** Python floats *)

Module PyFloat.

Definition prec : Z := 53.
Definition emax : Z := 1024.
Definition t : Type := spec_float.

Definition mul : t -> t -> t := SFmul prec emax.
Definition sub : t -> t -> t := SFsub prec emax.
Definition add : t -> t -> t := SFadd prec emax.
Definition div : t -> t -> t := SFdiv prec emax.
Definition ltb : t -> t -> bool := SFltb.

(** The nearest double of the integer [m * 2^e] (ties to even). *)
Definition of_scaled (m e : Z) (szero : bool) : t :=
  binary_normalize prec emax m e szero.

Definition is_zero (x : t) : bool :=
  match x with
  | S754_zero _ => true
  | _ => false
  end.

Definition signed (s : bool) (m : Z) : Z := if s then - m else m.

(** An integer as an unrounded mantissa with exponent 0. *)
Definition exact (z : Z) : t :=
  match z with
  | Z0 => S754_zero false
  | Zpos p => S754_finite false p 0
  | Zneg p => S754_finite true p 0
  end.

(** [float(z)]: correctly rounded, [OverflowError] when out of range. *)
Definition of_int (z : Z) : res t :=
  match of_scaled z 0 false with
  | S754_infinity _ => Raise OverflowError
  | f => Ok f
  end.

(** The literals [1e18], [1e8], [1.0], [0.5] and [0.0]. *)
Definition lit_1e18 : t := of_scaled (10 ^ 18) 0 false.
Definition lit_1e8 : t := of_scaled (10 ^ 8) 0 false.
Definition one : t := of_scaled 1 0 false.
Definition half : t := of_scaled 1 (-1) false.
Definition zero : t := S754_zero false.

(** [x == z] for a float [x] and an int [z]: Python compares the exact
    mathematical values. *)
Definition eq_int (x : t) (z : Z) : bool :=
  match x with
  | S754_zero _ => z =? 0
  | S754_finite s m e =>
      if 0 <=? e then signed s (Zpos m * 2 ^ e) =? z
      else signed s (Zpos m) =? z * 2 ^ (- e)
  | _ => false
  end.

(** [a / b] on two ints ([long_true_divide]): the correctly rounded quotient. *)
Definition int_truediv (a b : Z) : res t :=
  if b =? 0 then Raise ZeroDivisionError
  else match div (exact a) (exact b) with
       | S754_infinity _ => Raise OverflowError
       | f => Ok f
       end.

(** [x / y] on two floats ([float_div]). *)
Definition truediv (x y : t) : res t :=
  if is_zero y then Raise ZeroDivisionError else Ok (div x y).

(** C's [fmod]: the exact remainder, with the sign of [x]. *)
Definition fmod (x y : t) : t :=
  match x, y with
  | S754_nan, _ | _, S754_nan => S754_nan
  | S754_infinity _, _ => S754_nan
  | _, S754_zero _ => S754_nan
  | S754_zero s, _ => S754_zero s
  | S754_finite _ _ _, S754_infinity _ => x
  | S754_finite sx mx ex, S754_finite _ my ey =>
      let e0 := Z.min ex ey in
      let X := Zpos mx * 2 ^ (ex - e0) in
      let Y := Zpos my * 2 ^ (ey - e0) in
      of_scaled (signed sx (X mod Y)) e0 sx
  end.

(** C's [floor]. *)
Definition floor (x : t) : t :=
  match x with
  | S754_finite s m e =>
      if 0 <=? e then x
      else of_scaled (Z.shiftr (signed s (Zpos m)) (- e)) 0 false
  | _ => x
  end.

Definition sign_bit (x : t) : bool :=
  match x with
  | S754_zero s | S754_infinity s | S754_finite s _ _ => s
  | S754_nan => false
  end.

(** The quotient computed by CPython's [_float_div_mod (vx, wx)]. *)
Definition div_mod_quotient (vx wx : t) : t :=
  let md := fmod vx wx in
  let dv := div (sub vx md) wx in
  let dv :=
    if negb (is_zero md) && negb (Bool.eqb (ltb wx zero) (ltb md zero))
    then sub dv one else dv in
  if negb (is_zero dv) then
    let fl := floor dv in
    if ltb half (sub dv fl) then add fl one else fl
  else S754_zero (sign_bit (div vx wx)).

(** [x // y] on two floats ([float_floor_div]). *)
Definition floordiv (x y : t) : res t :=
  if is_zero y then Raise ZeroDivisionError else Ok (div_mod_quotient x y).

(** [int(x)]: truncation toward zero. *)
Definition to_int (x : t) : res Z :=
  match x with
  | S754_nan => Raise ValueError
  | S754_infinity _ => Raise OverflowError
  | S754_zero _ => Ok 0
  | S754_finite s m e =>
      Ok (signed s (if 0 <=? e then Zpos m * 2 ^ e
                    else Z.shiftr (Zpos m) (- e)))
  end.

(** *** Fixed-point formatting, [format(x, ".pf")] *)

Definition digits (n : Z) : string :=
  NilZero.string_of_uint (N.to_uint (Z.to_N n)).

Fixpoint zeros (n : nat) : string :=
  match n with
  | O => EmptyString
  | S k => String "0" (zeros k)
  end.

Definition pad_left (p : nat) (s : string) : string :=
  zeros (p - String.length s) +++ s.

(** [n / d] rounded to the nearest integer, ties to even ([0 <= n], [0 < d]). *)
Definition round_half_even (n d : Z) : Z :=
  let q := n / d in
  match 2 * (n mod d) ?= d with
  | Lt => q
  | Gt => q + 1
  | Eq => if Z.even q then q else q + 1
  end.

(** The digits of [n / 10^p] with [p] decimals. *)
Definition fixed (n : Z) (p : nat) : string :=
  let k := 10 ^ Z.of_nat p in
  digits (n / k) +++
  match p with
  | O => EmptyString
  | S _ => String "." (pad_left p (digits (n mod k)))
  end.

Definition sign_str (s : bool) : string :=
  if s then "-"%string else EmptyString.

Definition format_f (p : nat) (x : t) : string :=
  match x with
  | S754_nan => "nan"%string
  | S754_infinity s => sign_str s +++ "inf"
  | S754_zero s => sign_str s +++ fixed 0 p
  | S754_finite s m e =>
      let k := 10 ^ Z.of_nat p in
      let n := if 0 <=? e then Zpos m * 2 ^ e * k
               else round_half_even (Zpos m * k) (2 ^ (- e)) in
      sign_str s +++ fixed n p
  end.

End PyFloat.

(** ** Data of the program *)

(** A decoded [Swap] log entry, as [get_new_entries] yields it. *)
Record SwapArgs : Type := {
  sender : string;
  amount0In : Z;
  amount1In : Z;
  amount0Out : Z;
  amount1Out : Z;
  to : string
}.

Record Event : Type := {
  args : SwapArgs;
  transactionHash : list byte
}.

(** The handle [contract.events.Swap.create_filter] returns: the identifier
    the node gave to the filter, and where it starts. *)
Record Filter : Type := {
  filter_id : Z;
  fromBlock : string
}.

(** The callbacks a job can run: only [monitor_buys] is ever scheduled. *)
Inductive callback : Type :=
| Cb_monitor_buys.

Record Job : Type := {
  job_id : nat;
  job_callback : callback;
  job_interval : Z;
  job_first : Z;
  job_name : string
}.

(** The arguments of one [context.bot.send_message] call. *)
Record Message : Type := {
  msg_chat_id : value;
  msg_text : string;
  msg_parse_mode : option string;
  msg_disable_web_page_preview : option bool
}.

(** The part of an [Update] the handlers read: [update.effective_chat.id],
    which python-telegram-bot types as an [int]. *)
Record Update : Type := {
  effective_chat_id : Z
}.

(** What the outside answers to a call: a result, or a failure that the
    client library raises as an exception. *)
Inductive reply (A : Type) : Type :=
| Reply (a : A)
| Fail (msg : string).
Arguments Reply {A} a.
Arguments Fail {A} msg.

Inductive level : Type :=
| INFO
| ERROR.

(** One interaction with the outside, with its outcome. *)
Inductive io_event : Type :=
| IoCreateFilter (from_block : string) (r : reply Z)
| IoGetNewEntries (f : Filter) (r : reply (list Event))
| IoLatestRoundData (r : reply (list Z))
| IoSendMessage (m : Message) (r : reply unit)
| IoLog (l : level) (msg : string).

(** The outside: the RPC node and the Telegram API.  Each answer may depend
    on everything that happened before. *)
Record Remote : Type := {
  rpc_new_filter : list io_event -> string -> reply Z;
  rpc_get_new_entries : list io_event -> Filter -> reply (list Event);
  rpc_latestRoundData : list io_event -> reply (list Z);
  bot_send_message : list io_event -> Message -> reply unit
}.

(** The module-level names the functions read or write. *)
Record Globals : Type := {
  TOKEN_DECIMALS : value;
  CHAT_ID : value;
  PAIR_CONTRACT_ADDRESS : string;
  event_filter : option Filter
}.

Record World : Type := {
  globals : Globals;
  job_queue : list Job;
  jobs_created : nat;
  trace : list io_event
}.

Definition ROCKET_EMOJI_DIVIDER : Z := 20.

(** [os.environ], and [os.getenv (key)]: a [str], or [None]. *)
Definition Environ : Type := string -> option string.

Definition os_getenv (environ : Environ) (key : string) : value :=
  match environ key with
  | Some s => VStr s
  | None => VNone
  end.

(** The globals after the module body has run; [pair_address] is the
    checksummed form of the configured pair address. *)
Definition module_globals (environ : Environ) (pair_address : string) : Globals :=
  {| TOKEN_DECIMALS := os_getenv environ "TOKEN_DECIMALS";
     CHAT_ID := os_getenv environ "CHAT_ID";
     PAIR_CONTRACT_ADDRESS := pair_address;
     event_filter := None |}.

Definition initial_world (environ : Environ) (pair_address : string) : World :=
  {| globals := module_globals environ pair_address;
     job_queue := [];
     jobs_created := 0;
     trace := [] |}.

(** ** The monad of the program: state and exceptions *)

Definition M (A : Type) : Type := World -> World * res A.

Definition ret {A} (a : A) : M A := fun w => (w, Ok a).

Definition raise {A} (e : exn) : M A := fun w => (w, Raise e).

Definition bind {A B} (m : M A) (k : A -> M B) : M B :=
  fun w =>
    match m w with
    | (w', Ok a) => k a w'
    | (w', Raise e) => (w', Raise e)
    end.

Definition lift {A} (r : res A) : M A := fun w => (w, r).

Notation "x <- m ;; k" := (bind m (fun x => k))
  (at level 61, m at next level, right associativity).
Notation "m ;; k" := (bind m (fun _ => k))
  (at level 61, right associativity).

Definition read_globals : M Globals := fun w => (w, Ok (globals w)).

Definition record (e : io_event) (w : World) : World :=
  {| globals := globals w;
     job_queue := job_queue w;
     jobs_created := jobs_created w;
     trace := trace w ++ [e] |}.

Definition set_event_filter (f : Filter) : M unit :=
  fun w =>
    ({| globals := {| TOKEN_DECIMALS := TOKEN_DECIMALS (globals w);
                      CHAT_ID := CHAT_ID (globals w);
                      PAIR_CONTRACT_ADDRESS := PAIR_CONTRACT_ADDRESS (globals w);
                      event_filter := Some f |};
        job_queue := job_queue w;
        jobs_created := jobs_created w;
        trace := trace w |}, Ok tt).

Definition set_job_queue (q : list Job) (w : World) : World :=
  {| globals := globals w;
     job_queue := q;
     jobs_created := jobs_created w;
     trace := trace w |}.

Definition of_reply {A} (r : reply A) : res A :=
  match r with
  | Reply a => Ok a
  | Fail msg => Raise (RemoteError msg)
  end.

(** [for x in l: body (x)] *)
Fixpoint for_each {A} (body : A -> M unit) (l : list A) : M unit :=
  match l with
  | [] => ret tt
  | x :: l' => body x ;; for_each body l'
  end.

(** [logger.info] and [logger.error] *)
Definition logger_info (msg : string) : M unit :=
  fun w => (record (IoLog INFO msg) w, Ok tt).

Definition logger_error (msg : string) : M unit :=
  fun w => (record (IoLog ERROR msg) w, Ok tt).

(** ** Strings *)

Definition nl : string := String (ascii_of_nat 10) EmptyString.

(** The marker of [format_swap_message]: the four characters of the source
    literal, as the nine bytes of their UTF-8 encoding. *)
Definition rocket : string :=
  string_of_list_byte [xc3; xb0; xc5; xb8; xc5; xa1; xe2; x82; xac].

(** [n] copies of [s], one after the other. *)
Fixpoint repeat_string (s : string) (n : nat) : string :=
  match n with
  | O => EmptyString
  | S k => s +++ repeat_string s k
  end.

(** [len (s)]: the characters of [s], one for each byte of its encoding that
    is no continuation byte. *)
Definition is_continuation (c : ascii) : bool :=
  match c with
  | Ascii _ _ _ _ _ _ b6 b7 => b7 && negb b6
  end.

Fixpoint py_len (s : string) : Z :=
  match s with
  | EmptyString => 0
  | String c s' => (if is_continuation c then 0 else 1) + py_len s'
  end.

(** What the interpreter takes from the machine it runs on: the C library's
    [pow], which CPython calls for a negative exponent; [sys.maxsize], the
    largest [Py_ssize_t]; and whether the allocator grants a new [str] of so
    many characters. *)
Record Platform : Type := {
  libm_pow : PyFloat.t -> PyFloat.t -> PyFloat.t;
  sys_maxsize : Z;
  can_allocate : Z -> bool
}.

(** [s * n], as [PyNumber_AsSsize_t] and [unicode_repeat] compute it: the
    count has to fit a [Py_ssize_t]; a count below 1 gives the empty string
    and the count 1 gives [s] itself, both without a new object; the length
    of the result has to fit a [Py_ssize_t]; and the new string has to be
    allocated. *)
Definition str_mul (host : Platform) (s : string) (n : Z) : res string :=
  if (sys_maxsize host <? n) || (n <? - sys_maxsize host - 1)
  then Raise OverflowError
  else if n <? 1 then Ok EmptyString
  else if n =? 1 then Ok s
  else if sys_maxsize host / n <? py_len s then Raise OverflowError
  else if can_allocate host (n * py_len s)
       then Ok (repeat_string s (Z.to_nat n))
       else Raise MemoryError.

Definition hex_digit (n : N) : ascii :=
  match n with
  | 0 => "0" | 1 => "1" | 2 => "2" | 3 => "3" | 4 => "4" | 5 => "5"
  | 6 => "6" | 7 => "7" | 8 => "8" | 9 => "9" | 10 => "a" | 11 => "b"
  | 12 => "c" | 13 => "d" | 14 => "e" | _ => "f"
  end%N%char.

Fixpoint hex_of_bytes (l : list byte) : string :=
  match l with
  | [] => EmptyString
  | b :: l' =>
      let n := Byte.to_N b in
      String (hex_digit (n / 16)) (String (hex_digit (n mod 16)) (hex_of_bytes l'))
  end.

(** [HexBytes.hex ()]: lower-case digits after the [0x] prefix. *)
Definition hexbytes_hex (l : list byte) : string :=
  "0x" +++ hex_of_bytes l.

(** Is a [str] true in a condition?  Every one except the empty one. *)
Definition str_truthy (s : string) : bool :=
  negb (String.eqb s EmptyString).

(** ** The program *)

(** The result of [10 ** TOKEN_DECIMALS], when there is one. *)
Inductive num : Type :=
| NInt (z : Z)
| NFloat (f : PyFloat.t).

(** [a / p] for an int [a]. *)
Definition int_truediv_num (a : Z) (p : num) : res PyFloat.t :=
  match p with
  | NInt b => PyFloat.int_truediv a b
  | NFloat y => res_bind (PyFloat.of_int a) (fun x => PyFloat.truediv x y)
  end.

(** [t[i]] on a tuple. *)
Definition tuple_item (t : list Z) (i : nat) : res Z :=
  match nth_error t i with
  | Some x => Ok x
  | None => Raise IndexError
  end.

Section Program.

(** The machine the interpreter runs on. *)
Variable host : Platform.

(** The outside the process talks to. *)
Variable net : Remote.

(** [b ** e] for an int [b]: an int for an exponent [0 <= e], a float
    below; no [__pow__] accepts a [str] or [None]. *)
Definition int_pow (b : Z) (e : value) : res num :=
  match e with
  | VInt n =>
      if 0 <=? n then Ok (NInt (b ^ n))
      else if b =? 0 then Raise ZeroDivisionError
      else res_bind (PyFloat.of_int b) (fun x =>
           res_bind (PyFloat.of_int n) (fun y =>
           Ok (NFloat (libm_pow host x y))))
  | VNone | VStr _ => Raise TypeError
  end.

(** *** Calls that leave the process *)

Definition create_filter (from_block : string) : M Filter :=
  fun w =>
    let r := rpc_new_filter net (trace w) from_block in
    (record (IoCreateFilter from_block r) w,
     res_bind (of_reply r) (fun id =>
       Ok {| filter_id := id; fromBlock := from_block |})).

Definition get_new_entries (f : Filter) : M (list Event) :=
  fun w =>
    let r := rpc_get_new_entries net (trace w) f in
    (record (IoGetNewEntries f r) w, of_reply r).

Definition latestRoundData_call : M (list Z) :=
  fun w =>
    let r := rpc_latestRoundData net (trace w) in
    (record (IoLatestRoundData r) w, of_reply r).

Definition send_message (chat_id : value) (text : string)
    (parse_mode : option string) (disable_web_page_preview : option bool)
  : M unit :=
  fun w =>
    let m := {| msg_chat_id := chat_id;
                msg_text := text;
                msg_parse_mode := parse_mode;
                msg_disable_web_page_preview := disable_web_page_preview |} in
    let r := bot_send_message net (trace w) m in
    (record (IoSendMessage m r) w, of_reply r).

(** *** The job queue *)

Definition run_repeating (cb : callback) (interval first : Z) (name : string)
  : M unit :=
  fun w =>
    ({| globals := globals w;
        job_queue := job_queue w ++
          [{| job_id := jobs_created w;
              job_callback := cb;
              job_interval := interval;
              job_first := first;
              job_name := name |}];
        jobs_created := S (jobs_created w);
        trace := trace w |}, Ok tt).

Definition has_name (name : string) (j : Job) : bool :=
  String.eqb (job_name j) name.

Definition get_jobs_by_name (name : string) : M (list Job) :=
  fun w => (w, Ok (filter (has_name name) (job_queue w))).

Definition is_not (j j' : Job) : bool :=
  negb (Nat.eqb (job_id j') (job_id j)).

Definition schedule_removal (j : Job) : M unit :=
  fun w => (set_job_queue (filter (is_not j) (job_queue w)) w, Ok tt).

(** *** [get_latest_eth_price] *)

Definition get_latest_eth_price : M PyFloat.t :=
  latest_price <- latestRoundData_call ;;
  answer <- lift (tuple_item latest_price 1) ;;
  lift (int_truediv_num answer (NFloat PyFloat.lit_1e8)).

(** *** [format_swap_message] *)

(** The text of the message, from the values of the variables. *)
Definition render (rockets : string) (spent_eth spent_eth_usd_value
    tokens_got token_price : PyFloat.t) (transaction_hash pair : string)
  : string :=
  let token_name := "RareFiND" in
  let token_symbol := "FND" in
  "<b>" +++ token_name +++ " (" +++ token_symbol +++ ") BUY!</b>" +++ nl +++
  rockets +++ nl +++ nl +++
  "<b>Spent:</b> " +++ PyFloat.format_f 3 spent_eth +++ " ETH = ($" +++
    PyFloat.format_f 2 spent_eth_usd_value +++ ")" +++ nl +++
  "<b>Got:</b> " +++ PyFloat.format_f 2 tokens_got +++ " " +++
    token_symbol +++ nl +++
  "<b>Price:</b> " +++ PyFloat.format_f 6 token_price +++ nl +++ nl +++
  "<a href='https://etherscan.io/tx/" +++ transaction_hash +++
    "'>TX</a> | <a href='https://www.dextools.io/app/en/ether/pair-explorer/" +++
    pair +++ "'>Dex</a>".

(** [num_rockets], from [spent_eth_usd_value]. *)
Definition num_rockets_of (spent_eth_usd_value : PyFloat.t) : res Z :=
  res_bind (PyFloat.of_int ROCKET_EMOJI_DIVIDER) (fun divider =>
  res_bind (PyFloat.floordiv spent_eth_usd_value divider) (fun q =>
  res_bind (PyFloat.to_int q) (fun n =>
  Ok (Z.max 1 n)))).

(** The function after its early return. *)
Definition format_swap_message_buy (event : Event) (tokens_got : PyFloat.t)
  : M (option string) :=
  spent_eth <- lift (int_truediv_num (amount1In (args event))
                                     (NFloat PyFloat.lit_1e18)) ;;
  eth_price <- get_latest_eth_price ;;
  let spent_eth_usd_value := PyFloat.mul spent_eth eth_price in
  token_price <- lift (PyFloat.truediv spent_eth_usd_value tokens_got) ;;
  let transaction_hash := hexbytes_hex (transactionHash event) in
  num_rockets <- lift (num_rockets_of spent_eth_usd_value) ;;
  rockets <- lift (str_mul host rocket num_rockets) ;;
  g <- read_globals ;;
  ret (Some (render rockets spent_eth spent_eth_usd_value tokens_got
               token_price transaction_hash (PAIR_CONTRACT_ADDRESS g))).

(** [None] stands for the [False] the function returns for a skipped event. *)
Definition format_swap_message (event : Event) : M (option string) :=
  g <- read_globals ;;
  p <- lift (int_pow 10 (TOKEN_DECIMALS g)) ;;
  tokens_got <- lift (int_truediv_num (amount0Out (args event)) p) ;;
  if PyFloat.eq_int tokens_got 0 then ret None
  else format_swap_message_buy event tokens_got.

(** *** [monitor_buys] *)

(** The body of the [for] loop. *)
Definition monitor_buys_event (event : Event) : M unit :=
  text <- format_swap_message event ;;
  match text with
  | None => ret tt
  | Some text =>
      if str_truthy text then
        g <- read_globals ;;
        send_message (CHAT_ID g) text (Some "HTML"%string) (Some true) ;;
        logger_info ("Function: monitor_buys: Got new price:" +++ nl +++ text)
      else ret tt
  end.

(** The body of the [try]. *)
Definition monitor_buys_try : M unit :=
  g <- read_globals ;;
  match event_filter g with
  | None => raise AttributeError
  | Some f =>
      new_entries <- get_new_entries f ;;
      for_each monitor_buys_event new_entries
  end.

(** [try: body except Exception as e: handler (e)] *)
Definition try_except {A} (body : M A) (handler : exn -> M A) : M A :=
  fun w =>
    match body w with
    | (w', Ok a) => (w', Ok a)
    | (w', Raise e) => handler e w'
    end.

(** The message is no f-string: the braces are logged as they are. *)
Definition monitor_buys_error_text : string :=
  "Function: monitor_buys: Error fetching new entries: {e}".

Definition monitor_buys : M unit :=
  try_except monitor_buys_try
    (fun e => logger_error monitor_buys_error_text).

(** *** The command handlers *)

Definition start_text : string := "Monitoring for buys has started.".
Definition stop_text : string := "Rare Buy Bot has stopped monitoring buys.".
Definition rejection_text : string := "This bot works only on @rarefnd group.".
Definition job_name_active : string := "monitoring_active".

Definition start (update : Update) : M unit :=
  let chat_id := VInt (effective_chat_id update) in
  f <- create_filter "latest" ;;
  set_event_filter f ;;
  g <- read_globals ;;
  if py_eq chat_id (CHAT_ID g) then
    send_message chat_id start_text None None ;;
    run_repeating Cb_monitor_buys 10 0 job_name_active ;;
    logger_info ("Function: start: " +++ start_text)
  else
    send_message chat_id rejection_text None None ;;
    logger_info ("Function: start: " +++ rejection_text).

Definition stop (update : Update) : M unit :=
  let chat_id := VInt (effective_chat_id update) in
  g <- read_globals ;;
  if py_eq chat_id (CHAT_ID g) then
    current_jobs <- get_jobs_by_name job_name_active ;;
    for_each schedule_removal current_jobs ;;
    send_message chat_id stop_text None None ;;
    logger_info ("Function: stop: " +++ stop_text)
  else
    send_message chat_id rejection_text None None ;;
    logger_info ("Function: stop: " +++ rejection_text).

Definition help_text : string :=
  "Rare Buy Bot monitors buy events and notifies @rarefnd group chat." +++ nl +++
  "To start the bot, type /start@rare_buy_bot." +++ nl +++
  "This bot works only on @rarefnd group.".

Definition help_command (update : Update) : M unit :=
  send_message (VInt (effective_chat_id update)) help_text None None.

End Program.

(** ** Vocabulary of the statements *)

(** The world after the interactions [es] and nothing else. *)
Definition extend (w : World) (es : list io_event) : World :=
  {| globals := globals w;
     job_queue := job_queue w;
     jobs_created := jobs_created w;
     trace := trace w ++ es |}.

(** The messages Telegram accepted, oldest first. *)
Fixpoint delivered (tr : list io_event) : list Message :=
  match tr with
  | [] => []
  | IoSendMessage m (Reply _) :: tr' => m :: delivered tr'
  | _ :: tr' => delivered tr'
  end.

(** The globals with the subscription handle bound to [f]. *)
Definition with_event_filter (g : Globals) (f : option Filter) : Globals :=
  {| TOKEN_DECIMALS := TOKEN_DECIMALS g;
     CHAT_ID := CHAT_ID g;
     PAIR_CONTRACT_ADDRESS := PAIR_CONTRACT_ADDRESS g;
     event_filter := f |}.

(** A world of a process whose module body ran in [environ]: the handle,
    the job queue and the history are arbitrary. *)
Definition running_world (environ : Environ) (pair_address : string)
    (f : option Filter) (q : list Job) (n : nat) (tr : list io_event) : World :=
  {| globals := with_event_filter (module_globals environ pair_address) f;
     job_queue := q;
     jobs_created := n;
     trace := tr |}.

(** How often [pat] occurs in [s], at any offset. *)
Fixpoint occurrences (pat s : string) : nat :=
  match s with
  | EmptyString => O
  | String _ s' =>
      ((if String.prefix pat s then 1 else 0) + occurrences pat s')%nat
  end.

(** The message a command handler sends to the chat it was called from. *)
Definition reply_message (chat_id : value) (text : string) : Message :=
  {| msg_chat_id := chat_id;
     msg_text := text;
     msg_parse_mode := None;
     msg_disable_web_page_preview := None |}.

(** From [w] to [w'] the outside saw one [send_message] of [m], whatever
    its outcome, and after an accepted one the log line [line]. *)
Definition sent_and_logged (net : Remote) (w w' : World) (m : Message)
    (line : string) : Prop :=
  let r := bot_send_message net (trace w) m in
  trace w' = trace w ++ IoSendMessage m r ::
               match r with
               | Reply _ => [IoLog INFO line]
               | Fail _ => []
               end.

(** The job [start] schedules, when it is the [n]-th job of the process. *)
Definition monitoring_job (n : nat) : Job :=
  {| job_id := n;
     job_callback := Cb_monitor_buys;
     job_interval := 10;
     job_first := 0;
     job_name := job_name_active |}.

(** The queue after [schedule_removal] on each job of [js], in order. *)
Definition remaining (js q : list Job) : list Job :=
  fold_left (fun q j => filter (is_not j) q) js q.

(** One handler of the application runs: a command arrives, or the job
    queue fires the poll. *)
Inductive handler_step (host : Platform)
    (net : Remote) : World -> World -> Prop :=
| step_start update w :
    handler_step host net w (fst (start net update w))
| step_stop update w :
    handler_step host net w (fst (stop net update w))
| step_help_command update w :
    handler_step host net w (fst (help_command net update w))
| step_monitor_buys w :
    handler_step host net w (fst (monitor_buys host net w)).

(** The worlds a process started in [environ] can be in. *)
Inductive reachable (host : Platform)
    (net : Remote) (environ : Environ) (pair_address : string)
  : World -> Prop :=
| reachable_initial :
    reachable host net environ pair_address
      (initial_world environ pair_address)
| reachable_step w w' :
    reachable host net environ pair_address w ->
    handler_step host net w w' ->
    reachable host net environ pair_address w'.

(** Is [s] made of ASCII characters only? *)
Fixpoint plain (s : string) : bool :=
  match s with
  | EmptyString => true
  | String c s' => (N_of_ascii c <? 128)%N && plain s'
  end.

(** ** Inputs of the examples *)

(** The process environment of the examples: 18 decimals, one chat. *)
Definition example_environ : Environ :=
  fun key =>
    if String.eqb key "TOKEN_DECIMALS" then Some "18"
    else if String.eqb key "CHAT_ID" then Some "-1001234567890"
    else None.

Definition example_pair : string := "0x0d4a11d5EEaaC28EC3F61d100daF4d40471f1852".

(** A node that creates filter 7 and reports no entry, a price feed that
    answers 3000 USD per ETH, and a Telegram that accepts every message. *)
Definition example_net : Remote :=
  {| rpc_new_filter := fun _ _ => Reply 7;
     rpc_get_new_entries := fun _ _ => Reply [];
     rpc_latestRoundData := fun _ => Reply [1; 3000 * 10 ^ 8; 0; 0; 1];
     bot_send_message := fun _ _ => Reply tt |}.

(** A 64-bit machine that grants a string of up to 2^20 characters; its [pow]
    is never reached in the examples. *)
Definition example_host : Platform :=
  {| libm_pow := fun x y => S754_nan;
     sys_maxsize := 2 ^ 63 - 1;
     can_allocate := fun n => n <=? 2 ^ 20 |}.

(** The same machine with room for a string of 1000 characters only. *)
Definition small_host : Platform :=
  {| libm_pow := libm_pow example_host;
     sys_maxsize := sys_maxsize example_host;
     can_allocate := fun n => n <=? 1000 |}.

Definition swap_event (out0 in1 : Z) : Event :=
  {| args := {| sender := "0x7a250d5630B4cF539739dF2C5dAcb4c659F2488D";
                amount0In := 0;
                amount1In := in1;
                amount0Out := out0;
                amount1Out := 0;
                to := "0x28C6c06298d514Db089934071355E5743bf21d60" |};
     transactionHash := [xde; xad; xbe; xef] |}.

(** The event of the specification's example: 500 tokens for 2 ETH. *)
Definition example_event : Event := swap_event (500 * 10 ^ 18) (2 * 10 ^ 18).

Definition example_filter : Filter :=
  {| filter_id := 7; fromBlock := "latest" |}.

(** The process right after its module body ran in [example_environ]. *)
Definition example_world : World :=
  initial_world example_environ example_pair.

(** The same process later: polling, with one job and some history. *)
Definition polling_world : World :=
  running_world example_environ example_pair (Some example_filter)
    [monitoring_job 0] 1
    [IoCreateFilter "latest" (Reply 7)].

(** The chat that [CHAT_ID] designates in [example_environ], and another. *)
Definition designated_chat : Update := {| effective_chat_id := -1001234567890 |}.
Definition other_chat : Update := {| effective_chat_id := 42 |}.

(** A world in which [TOKEN_DECIMALS] and [CHAT_ID] hold the integers that
    the variables of [example_environ] denote, as [int (os.getenv (...))]
    would bind them. *)
Definition converted_world : World :=
  {| globals := {| TOKEN_DECIMALS := VInt 18;
                   CHAT_ID := VInt (-1001234567890);
                   PAIR_CONTRACT_ADDRESS := example_pair;
                   event_filter := Some example_filter |};
     job_queue := [monitoring_job 0];
     jobs_created := 1;
     trace := [IoCreateFilter "latest" (Reply 7)] |}.

(** A node that returns a batch of two buys, and a Telegram that accepts
    one message and times out afterwards. *)
Definition flaky_net : Remote :=
  {| rpc_new_filter := fun _ _ => Reply 7;
     rpc_get_new_entries := fun _ _ => Reply [example_event; example_event];
     rpc_latestRoundData := fun _ => Reply [1; 3000 * 10 ^ 8; 0; 0; 1];
     bot_send_message := fun tr _ =>
       match delivered tr with
       | [] => Reply tt
       | _ => Fail "Timed out"
       end |}.

(** ** Vocabulary of the further statements *)

(** How many price-feed queries, [send_message] calls and accepted messages
    a stretch of history holds. *)
Fixpoint price_queries (es : list io_event) : nat :=
  match es with
  | [] => O
  | IoLatestRoundData _ :: es' => S (price_queries es')
  | _ :: es' => price_queries es'
  end.

Fixpoint send_attempts (es : list io_event) : nat :=
  match es with
  | [] => O
  | IoSendMessage _ _ :: es' => S (send_attempts es')
  | _ :: es' => send_attempts es'
  end.

(** The message [monitor_buys] sends for a buy. *)
Definition buy_message (chat_id : value) (text : string) : Message :=
  {| msg_chat_id := chat_id;
     msg_text := text;
     msg_parse_mode := Some "HTML";
     msg_disable_web_page_preview := Some true |}.

(** What a tick of the poll may do after its fetch: query the price feed,
    send a buy message to [chat_id], write to the log. *)
Definition poll_interaction (chat_id : value) (e : io_event) : Prop :=
  match e with
  | IoLatestRoundData _ => True
  | IoSendMessage m _ => m = buy_message chat_id (msg_text m)
  | IoLog _ _ => True
  | IoCreateFilter _ _ => False
  | IoGetNewEntries _ _ => False
  end.

(** The interactions [es] of the poll's loop over [n] events, ending with
    the result [r]: only price queries, buy messages to [chat_id] and log
    lines; at most one price query per event and one message per price
    query; and when nothing was raised, one accepted message per query. *)
Definition loop_shape (chat_id : value) (n : nat) (es : list io_event)
    (r : res unit) : Prop :=
  Forall (poll_interaction chat_id) es /\
  (send_attempts es <= price_queries es)%nat /\
  (price_queries es <= n)%nat /\
  (r = Ok tt ->
   List.length (delivered es) = price_queries es /\
   send_attempts es = price_queries es).

(** The jobs of the queue are distinct objects, all created by the
    process. *)
Definition jobs_wf (w : World) : Prop :=
  NoDup (map job_id (job_queue w)) /\
  Forall (fun j => (job_id j < jobs_created w)%nat) (job_queue w).

(** The names bound once by the module body. *)
Definition same_constants (g g' : Globals) : Prop :=
  TOKEN_DECIMALS g' = TOKEN_DECIMALS g /\
  CHAT_ID g' = CHAT_ID g /\
  PAIR_CONTRACT_ADDRESS g' = PAIR_CONTRACT_ADDRESS g.

(** A node that is down, and one that returns a buy and a zero-amount swap
    to a Telegram that accepts every message. *)
Definition down_net : Remote :=
  {| rpc_new_filter := fun _ _ => Fail "Connection refused";
     rpc_get_new_entries := fun _ _ => Fail "Connection refused";
     rpc_latestRoundData := fun _ => Fail "Connection refused";
     bot_send_message := fun _ _ => Fail "Timed out" |}.

Definition steady_net : Remote :=
  {| rpc_new_filter := fun _ _ => Reply 8;
     rpc_get_new_entries := fun _ _ =>
       Reply [example_event; swap_event 0 (5 * 10 ^ 18)];
     rpc_latestRoundData := fun _ => Reply [1; 3000 * 10 ^ 8; 0; 0; 1];
     bot_send_message := fun _ _ => Reply tt |}.

(** A Telegram that refuses every message, behind a healthy node. *)
Definition mute_net : Remote :=
  {| rpc_new_filter := fun _ _ => Reply 7;
     rpc_get_new_entries := fun _ _ => Reply [];
     rpc_latestRoundData := fun _ => Reply [1; 3000 * 10 ^ 8; 0; 0; 1];
     bot_send_message := fun _ _ => Fail "Forbidden" |}.

(** A queue that also holds a job of another name. *)
Definition mixed_world : World :=
  {| globals := globals converted_world;
     job_queue := [monitoring_job 0;
                   {| job_id := 1; job_callback := Cb_monitor_buys;
                      job_interval := 60; job_first := 0;
                      job_name := "heartbeat" |};
                   monitoring_job 2];
     jobs_created := 3;
     trace := [] |}.

(** ** First facts *)

Lemma extend_nil w : extend w [] = w.
Proof. destruct w; unfold extend; simpl; now rewrite app_nil_r. Qed.

Lemma extend_extend w es1 es2 :
  extend (extend w es1) es2 = extend w (es1 ++ es2).
Proof. unfold extend; simpl; now rewrite app_assoc. Qed.

Lemma record_extend e w : record e w = extend w [e].
Proof. reflexivity. Qed.

Lemma delivered_app tr1 tr2 :
  delivered (tr1 ++ tr2) = delivered tr1 ++ delivered tr2.
Proof.
  induction tr1 as [|e tr1 IH]; simpl; [reflexivity|].
  destruct e as [ | | |m [u|msg]| ]; simpl; now rewrite IH.
Qed.

Lemma lit_1e18_not_zero : PyFloat.is_zero PyFloat.lit_1e18 = false.
Proof. reflexivity. Qed.

Lemma lit_1e8_not_zero : PyFloat.is_zero PyFloat.lit_1e8 = false.
Proof. reflexivity. Qed.

Lemma divider_float :
  exists d, PyFloat.of_int ROCKET_EMOJI_DIVIDER = Ok d /\ PyFloat.is_zero d = false.
Proof. eexists; split; reflexivity. Qed.

Lemma eq_int_zero x : PyFloat.eq_int x 0 = PyFloat.is_zero x.
Proof.
  destruct x as [s|s| |s m e]; try reflexivity.
  unfold PyFloat.eq_int, PyFloat.is_zero, PyFloat.signed.
  destruct (0 <=? e) eqn:He.
  - apply Z.eqb_neq. apply Z.leb_le in He.
    assert (0 < Z.pos m * 2 ^ e)
      by (apply Z.mul_pos_pos; [lia | now apply Z.pow_pos_nonneg]).
    destruct s; lia.
  - apply Z.eqb_neq. rewrite Z.mul_0_l. destruct s; lia.
Qed.

(** ** Counting markers *)

Lemma append_assoc s1 s2 s3 : (s1 +++ s2) +++ s3 = s1 +++ s2 +++ s3.
Proof. induction s1 as [|c s1 IH]; simpl; [reflexivity|now rewrite IH]. Qed.

Lemma plain_append s1 s2 : plain (s1 +++ s2) = plain s1 && plain s2.
Proof.
  induction s1 as [|c s1 IH]; simpl; [reflexivity|].
  now rewrite IH, andb_assoc.
Qed.

(** No marker starts on an ASCII character. *)
Lemma prefix_rocket_plain c s :
  (N_of_ascii c <? 128)%N = true -> String.prefix rocket (String c s) = false.
Proof.
  intros Hc.
  destruct c as [[] [] [] [] [] [] [] []]; try discriminate Hc; reflexivity.
Qed.

Lemma occurrences_cons c s :
  occurrences rocket (String c s) =
  ((if String.prefix rocket (String c s) then 1 else 0) + occurrences rocket s)%nat.
Proof. reflexivity. Qed.

Lemma occurrences_plain_append s1 s2 :
  plain s1 = true ->
  occurrences rocket (s1 +++ s2) = occurrences rocket s2.
Proof.
  induction s1 as [|c s1 IH]; intros H; [reflexivity|].
  simpl in H. apply andb_prop in H. destruct H as [Hc Hs].
  change (String c s1 +++ s2) with (String c (s1 +++ s2)).
  now rewrite occurrences_cons, (prefix_rocket_plain c (s1 +++ s2) Hc), IH.
Qed.

Lemma occurrences_plain s : plain s = true -> occurrences rocket s = O.
Proof.
  induction s as [|c s IH]; intros H; [reflexivity|].
  simpl in H. apply andb_prop in H. destruct H as [Hc Hs].
  now rewrite occurrences_cons, (prefix_rocket_plain c s Hc), IH.
Qed.

(** A marker overlaps no other marker. *)
Lemma occurrences_rocket_append s :
  occurrences rocket (rocket +++ s) = S (occurrences rocket s).
Proof. destruct s; reflexivity. Qed.

Lemma occurrences_repeat n s :
  occurrences rocket (repeat_string rocket n +++ s) =
  (n + occurrences rocket s)%nat.
Proof.
  induction n as [|n IH]; [reflexivity|].
  change (repeat_string rocket (S n)) with (rocket +++ repeat_string rocket n).
  now rewrite append_assoc, occurrences_rocket_append, IH.
Qed.

Lemma plain_digits n : plain (PyFloat.digits n) = true.
Proof.
  unfold PyFloat.digits, NilZero.string_of_uint.
  assert (H : forall d, plain (NilEmpty.string_of_uint d) = true)
    by (induction d; simpl; auto).
  destruct (N.to_uint (Z.to_N n)); try apply H; reflexivity.
Qed.

Lemma plain_zeros n : plain (PyFloat.zeros n) = true.
Proof. induction n; simpl; auto. Qed.

Lemma plain_fixed n p : plain (PyFloat.fixed n p) = true.
Proof.
  unfold PyFloat.fixed, PyFloat.pad_left.
  destruct p; rewrite plain_append, plain_digits; [reflexivity|].
  simpl. now rewrite plain_append, plain_zeros, plain_digits.
Qed.

Lemma plain_format_f p x : plain (PyFloat.format_f p x) = true.
Proof.
  destruct x as [s|s| |s m e]; simpl; try reflexivity;
    try (destruct s; reflexivity);
    rewrite plain_append, plain_fixed; destruct s; reflexivity.
Qed.

Lemma plain_hex_digit n : (N_of_ascii (hex_digit n) <? 128)%N = true.
Proof.
  destruct n as [|p]; [reflexivity|].
  do 4 (try (destruct p as [p|p|]); try reflexivity).
Qed.

Lemma plain_hexbytes_hex l : plain (hexbytes_hex l) = true.
Proof.
  unfold hexbytes_hex. simpl.
  induction l as [|b l IH]; [reflexivity|].
  simpl. now rewrite !plain_hex_digit, IH.
Qed.

(** The markers of a message are those of its second line. *)
Lemma occurrences_render n spent_eth spent_eth_usd_value tokens_got
    token_price l pair :
  plain pair = true ->
  occurrences rocket
    (render (repeat_string rocket n) spent_eth spent_eth_usd_value tokens_got
       token_price (hexbytes_hex l) pair) = n.
Proof.
  intros Hpair. unfold render. cbv zeta.
  do 6 (rewrite occurrences_plain_append by reflexivity).
  rewrite occurrences_repeat.
  rewrite occurrences_plain; [apply Nat.add_0_r|].
  rewrite !plain_append, !plain_format_f, plain_hexbytes_hex, Hpair.
  reflexivity.
Qed.

(** ** Repeating a string *)

Lemma append_empty_r s : s +++ EmptyString = s.
Proof. induction s as [|c s IH]; simpl; [reflexivity|now rewrite IH]. Qed.

(** When [s * n] returns, it returns the [n] copies. *)
Lemma str_mul_ok host s n r :
  str_mul host s n = Ok r -> r = repeat_string s (Z.to_nat n).
Proof.
  unfold str_mul.
  destruct (_ || _); [discriminate|].
  destruct (Z.ltb_spec n 1) as [Hn|Hn].
  { intros H. injection H as <-.
    replace (Z.to_nat n) with 0%nat by lia. reflexivity. }
  destruct (Z.eqb_spec n 1) as [->|_].
  { intros H. injection H as <-. simpl. now rewrite append_empty_r. }
  destruct (_ <? _); [discriminate|].
  destruct (can_allocate _ _); [|discriminate].
  intros H. now injection H as <-.
Qed.

(** [s * n] raises nothing but [OverflowError] and [MemoryError]. *)
Lemma str_mul_raises host s n e :
  str_mul host s n = Raise e -> e = OverflowError \/ e = MemoryError.
Proof.
  unfold str_mul.
  destruct (_ || _); [intros H; injection H as <-; now left|].
  destruct (_ <? 1); [discriminate|].
  destruct (_ =? 1); [discriminate|].
  destruct (_ <? _); [intros H; injection H as <-; now left|].
  destruct (can_allocate _ _); [discriminate|].
  intros H; injection H as <-; now right.
Qed.

Lemma str_mul_no_zero_division host s n :
  str_mul host s n <> Raise ZeroDivisionError.
Proof.
  intros H. apply str_mul_raises in H. destruct H; discriminate.
Qed.

(** A result that fits a [Py_ssize_t] and that the machine grants. *)
Lemma str_mul_fits host s n :
  1 < n ->
  0 < py_len s ->
  n * py_len s <= sys_maxsize host ->
  can_allocate host (n * py_len s) = true ->
  str_mul host s n = Ok (repeat_string s (Z.to_nat n)).
Proof.
  intros Hn Hs Hfit Hmem. unfold str_mul.
  assert (Hle : n <= sys_maxsize host) by nia.
  destruct (Z.ltb_spec (sys_maxsize host) n); [lia|].
  destruct (Z.ltb_spec n (- sys_maxsize host - 1)); [lia|]. simpl.
  destruct (Z.ltb_spec n 1); [lia|].
  destruct (Z.eqb_spec n 1); [lia|].
  destruct (Z.ltb_spec (sys_maxsize host / n) (py_len s)) as [Hlt|_].
  { assert (py_len s <= sys_maxsize host / n)
      by (apply Z.div_le_lower_bound; lia). lia. }
  now rewrite Hmem.
Qed.

(** ** The formatter *)

Section Formatter.

Variable host : Platform.
Variable net : Remote.

(** *** What a call changes *)

Lemma get_latest_eth_price_frame w :
  fst (get_latest_eth_price net w) =
  extend w [IoLatestRoundData (rpc_latestRoundData net (trace w))].
Proof.
  unfold get_latest_eth_price, bind, latestRoundData_call, lift.
  destruct (of_reply _); [|reflexivity].
  destruct (tuple_item _ _); reflexivity.
Qed.

Lemma format_swap_message_buy_frame event tokens_got w :
  exists es,
    fst (format_swap_message_buy host net event tokens_got w) = extend w es /\
    (es = [] \/ es = [IoLatestRoundData (rpc_latestRoundData net (trace w))]).
Proof.
  unfold format_swap_message_buy, bind, lift, read_globals, ret.
  destruct (int_truediv_num _ _) as [spent_eth|e].
  2:{ exists []. rewrite extend_nil. auto. }
  exists [IoLatestRoundData (rpc_latestRoundData net (trace w))].
  split; [|now right].
  pose proof (get_latest_eth_price_frame w) as Hf.
  destruct (get_latest_eth_price net w) as [w1 [price|e]]; simpl in Hf; subst w1;
    [|reflexivity].
  destruct (PyFloat.truediv _ _); [|reflexivity].
  destruct (num_rockets_of _); [|reflexivity].
  destruct (str_mul _ _ _); reflexivity.
Qed.

Lemma format_swap_message_frame event w :
  exists es,
    fst (format_swap_message host net event w) = extend w es /\
    (es = [] \/ es = [IoLatestRoundData (rpc_latestRoundData net (trace w))]).
Proof.
  unfold format_swap_message, bind, lift, read_globals, ret.
  destruct (int_pow _ _ _) as [p|e].
  2:{ exists []. rewrite extend_nil. auto. }
  destruct (int_truediv_num _ _) as [tokens_got|e].
  2:{ exists []. rewrite extend_nil. auto. }
  destruct (PyFloat.eq_int _ _).
  - exists []. rewrite extend_nil. auto.
  - apply format_swap_message_buy_frame.
Qed.

(** *** What the result depends on *)

Lemma get_latest_eth_price_globals net0 w :
  globals (fst (get_latest_eth_price net0 w)) = globals w.
Proof.
  unfold get_latest_eth_price, bind, latestRoundData_call, lift.
  destruct (of_reply _); [|reflexivity].
  destruct (tuple_item _ _); reflexivity.
Qed.

Lemma format_swap_message_buy_result net' event tokens_got w w' :
  PAIR_CONTRACT_ADDRESS (globals w) = PAIR_CONTRACT_ADDRESS (globals w') ->
  snd (get_latest_eth_price net w) = snd (get_latest_eth_price net' w') ->
  snd (format_swap_message_buy host net event tokens_got w) =
  snd (format_swap_message_buy host net' event tokens_got w').
Proof.
  intros Hpair Hprice.
  unfold format_swap_message_buy, bind, lift, read_globals, ret.
  destruct (int_truediv_num _ _) as [spent_eth|e]; [|reflexivity].
  pose proof (get_latest_eth_price_globals net w) as Hf.
  pose proof Hprice as Hr.
  pose proof (get_latest_eth_price_globals net' w') as Hf'.
  destruct (get_latest_eth_price net w) as [w1 r1].
  destruct (get_latest_eth_price net' w') as [w1' r1'].
  simpl in Hf, Hf', Hr. subst r1'.
  destruct r1 as [price|e]; [|reflexivity].
  destruct (PyFloat.truediv _ _); [|reflexivity].
  destruct (num_rockets_of _); [|reflexivity].
  destruct (str_mul _ _ _); [|reflexivity].
  simpl. now rewrite Hf, Hf', Hpair.
Qed.

Lemma format_swap_message_result net' event w w' :
  TOKEN_DECIMALS (globals w) = TOKEN_DECIMALS (globals w') ->
  PAIR_CONTRACT_ADDRESS (globals w) = PAIR_CONTRACT_ADDRESS (globals w') ->
  snd (get_latest_eth_price net w) = snd (get_latest_eth_price net' w') ->
  snd (format_swap_message host net event w) =
  snd (format_swap_message host net' event w').
Proof.
  intros Hdec Hpair Hprice.
  unfold format_swap_message, bind, lift, read_globals, ret.
  rewrite Hdec.
  destruct (int_pow _ _ _) as [p|e]; [|reflexivity].
  destruct (int_truediv_num _ _) as [tokens_got|e]; [|reflexivity].
  destruct (PyFloat.eq_int _ _); [reflexivity|].
  now apply format_swap_message_buy_result.
Qed.

(** C5. The formatter is deterministic and free of side effects: two calls
    on the same event, with the same decimals and pair address in the
    globals and the same answer of the price feed, return the same result
    (the same text, the same skip, or the same exception), whatever else
    differs in the two worlds; and a call changes nothing in the world but
    the trace, to which it adds at most the one price-feed query. *)
Theorem format_swap_message_deterministic net' event w w' :
  TOKEN_DECIMALS (globals w) = TOKEN_DECIMALS (globals w') ->
  PAIR_CONTRACT_ADDRESS (globals w) = PAIR_CONTRACT_ADDRESS (globals w') ->
  snd (get_latest_eth_price net w) = snd (get_latest_eth_price net' w') ->
  snd (format_swap_message host net event w) =
  snd (format_swap_message host net' event w') /\
  exists es,
    fst (format_swap_message host net event w) = extend w es /\
    (es = [] \/ es = [IoLatestRoundData (rpc_latestRoundData net (trace w))]).
Proof.
  intros Hdec Hpair Hprice. split.
  - now apply format_swap_message_result.
  - apply format_swap_message_frame.
Qed.

(** *** Division by zero *)

Lemma truediv_by_nonzero x y :
  PyFloat.is_zero y = false -> PyFloat.truediv x y = Ok (PyFloat.div x y).
Proof. intros H. unfold PyFloat.truediv. now rewrite H. Qed.

Lemma int_truediv_num_float a y :
  PyFloat.is_zero y = false ->
  int_truediv_num a (NFloat y) <> Raise ZeroDivisionError.
Proof.
  intros H. unfold int_truediv_num, res_bind, PyFloat.of_int.
  destruct (PyFloat.of_scaled a 0 false); try discriminate;
    now rewrite truediv_by_nonzero.
Qed.

Lemma num_rockets_of_no_zero_division x :
  num_rockets_of x <> Raise ZeroDivisionError.
Proof.
  unfold num_rockets_of.
  destruct divider_float as (d & -> & Hd). unfold res_bind at 1.
  unfold PyFloat.floordiv. rewrite Hd. unfold res_bind at 1.
  destruct (PyFloat.div_mod_quotient x d); simpl; discriminate.
Qed.

Lemma get_latest_eth_price_no_zero_division w :
  snd (get_latest_eth_price net w) <> Raise ZeroDivisionError.
Proof.
  unfold get_latest_eth_price, bind, latestRoundData_call, lift.
  destruct (rpc_latestRoundData net (trace w)) as [lp|msg]; simpl; [|discriminate].
  destruct (tuple_item lp 1) as [a|e] eqn:Ha.
  - simpl. apply int_truediv_num_float, lit_1e8_not_zero.
  - unfold tuple_item in Ha. destruct (nth_error lp 1); inversion Ha.
    simpl. discriminate.
Qed.

(** C8. Once the guard [tokens_got == 0] has not fired, the rest of the
    formatter never raises [ZeroDivisionError]: the division
    [spent_eth_usd_value / tokens_got] has a non-zero divisor (and so have
    the divisions by [1e18], [1e8] and [ROCKET_EMOJI_DIVIDER]). *)
Theorem format_swap_message_buy_no_zero_division event tokens_got w :
  PyFloat.eq_int tokens_got 0 = false ->
  (forall spent_eth_usd_value,
     PyFloat.truediv spent_eth_usd_value tokens_got =
     Ok (PyFloat.div spent_eth_usd_value tokens_got)) /\
  snd (format_swap_message_buy host net event tokens_got w) <> Raise ZeroDivisionError.
Proof.
  intros Hguard. rewrite eq_int_zero in Hguard. split.
  - intros usd. now apply truediv_by_nonzero.
  - unfold format_swap_message_buy, bind, lift, read_globals, ret.
    destruct (int_truediv_num _ _) as [spent_eth|e] eqn:Hs.
    2:{ simpl. intros He. injection He as ->.
        now apply (int_truediv_num_float _ _ lit_1e18_not_zero) in Hs. }
    pose proof (get_latest_eth_price_no_zero_division w) as Hp.
    destruct (get_latest_eth_price net w) as [w1 [price|e]].
    2:{ simpl in *. intros He. injection He as ->. now apply Hp. }
    rewrite truediv_by_nonzero by assumption.
    pose proof (num_rockets_of_no_zero_division (PyFloat.mul spent_eth price)) as Hn.
    destruct (num_rockets_of _) as [n|e].
    2:{ simpl. intros He. injection He as ->. now apply Hn. }
    pose proof (str_mul_no_zero_division host rocket n) as Hm.
    destruct (str_mul _ _ _) as [rockets|e]; [simpl; discriminate|].
    simpl. intros He. injection He as ->. now apply Hm.
Qed.

(** *** As the module loads it *)

(** No exponent read from the environment is accepted by [**]. *)
Lemma int_pow_getenv b environ key :
  int_pow host b (os_getenv environ key) = Raise TypeError.
Proof. unfold os_getenv; destruct (environ key); reflexivity. Qed.

Lemma format_swap_message_getenv event w environ key :
  TOKEN_DECIMALS (globals w) = os_getenv environ key ->
  format_swap_message host net event w = (w, Raise TypeError).
Proof.
  intros H. unfold format_swap_message, bind, read_globals, lift.
  now rewrite H, int_pow_getenv.
Qed.

(** C2. At the example of the specification (500 tokens out, 2 ETH in,
    decimals 18 in the environment, a price feed answering 3000) the
    formatter computes no [tokens_got], [spent_eth], [spent_usd] or
    [unit_price]: [TOKEN_DECIMALS] is the [str] that [os.getenv] returned,
    [10 ** TOKEN_DECIMALS] raises [TypeError], and the call ends there,
    before the price feed is asked. *)
Theorem format_swap_message_example_raises f q n tr :
  let w := running_world example_environ example_pair f q n tr in
  TOKEN_DECIMALS (globals w) = VStr "18" /\
  format_swap_message host net example_event w = (w, Raise TypeError).
Proof.
  split; [reflexivity|].
  now apply format_swap_message_getenv with example_environ "TOKEN_DECIMALS".
Qed.

(** C3. For an event whose [amount0Out] is 0 the formatter does not return
    the skip value [False]: in every process environment it raises
    [TypeError], as it does for every event. *)
Theorem format_swap_message_zero_raises environ pair f q n tr
    sender amount0In amount1In amount1Out to transactionHash :
  let event := {| args := {| sender := sender;
                             amount0In := amount0In;
                             amount1In := amount1In;
                             amount0Out := 0;
                             amount1Out := amount1Out;
                             to := to |};
                  transactionHash := transactionHash |} in
  let w := running_world environ pair f q n tr in
  format_swap_message host net event w = (w, Raise TypeError) /\
  snd (format_swap_message host net event w) <> Ok None.
Proof.
  intros event w.
  assert (H : format_swap_message host net event w = (w, Raise TypeError))
    by now apply format_swap_message_getenv with environ "TOKEN_DECIMALS".
  split; [exact H|]. rewrite H. discriminate.
Qed.

(** C4. For an event with a positive [amount0Out] the formatter renders no
    message, hence no marker at all: in every process environment it raises
    [TypeError] before [num_rockets] is computed. *)
Theorem format_swap_message_positive_raises environ pair f q n tr event :
  0 < amount0Out (args event) ->
  let w := running_world environ pair f q n tr in
  format_swap_message host net event w = (w, Raise TypeError) /\
  forall text, snd (format_swap_message host net event w) <> Ok (Some text).
Proof.
  intros _ w.
  assert (H : format_swap_message host net event w = (w, Raise TypeError))
    by now apply format_swap_message_getenv with environ "TOKEN_DECIMALS".
  split; [exact H|]. intros text. rewrite H. discriminate.
Qed.

(** *** With an integer for [TOKEN_DECIMALS]

    What the formatter does once [TOKEN_DECIMALS] holds the integer the
    environment variable denotes. *)

Lemma int_truediv_zero b :
  0 < b -> PyFloat.int_truediv 0 b = Ok (S754_zero false).
Proof.
  intros Hb. unfold PyFloat.int_truediv.
  destruct (Z.eqb_spec b 0) as [->|_]; [lia|].
  destruct b; try lia. reflexivity.
Qed.

(** A zero [amount0Out] is skipped, and the world is left as it was. *)
Lemma format_swap_message_int_skips_zero event w d :
  TOKEN_DECIMALS (globals w) = VInt d ->
  0 <= d ->
  amount0Out (args event) = 0 ->
  format_swap_message host net event w = (w, Ok None).
Proof.
  intros Hd Hpos Hout.
  unfold format_swap_message, bind, lift, read_globals, ret.
  rewrite Hd, Hout. unfold int_pow.
  destruct (Z.leb_spec 0 d) as [_|]; [|lia].
  unfold int_truediv_num. rewrite int_truediv_zero by (apply Z.pow_pos_nonneg; lia).
  reflexivity.
Qed.

(** The successful path of the function, step by step. *)
Lemma format_swap_message_buy_ok event tokens_got w
    spent_eth latest_price answer eth_price token_price num_rockets rockets :
  int_truediv_num (amount1In (args event)) (NFloat PyFloat.lit_1e18)
    = Ok spent_eth ->
  rpc_latestRoundData net (trace w) = Reply latest_price ->
  tuple_item latest_price 1 = Ok answer ->
  int_truediv_num answer (NFloat PyFloat.lit_1e8) = Ok eth_price ->
  PyFloat.truediv (PyFloat.mul spent_eth eth_price) tokens_got = Ok token_price ->
  num_rockets_of (PyFloat.mul spent_eth eth_price) = Ok num_rockets ->
  str_mul host rocket num_rockets = Ok rockets ->
  format_swap_message_buy host net event tokens_got w =
  (record (IoLatestRoundData (Reply latest_price)) w,
   Ok (Some (render rockets spent_eth
               (PyFloat.mul spent_eth eth_price) tokens_got token_price
               (hexbytes_hex (transactionHash event))
               (PAIR_CONTRACT_ADDRESS (globals w))))).
Proof.
  intros Hs Hr Ha Hp Ht Hn Hm.
  unfold format_swap_message_buy, bind, lift, read_globals, ret.
  rewrite Hs.
  unfold get_latest_eth_price, bind, latestRoundData_call, lift.
  rewrite Hr. simpl of_reply. cbv beta iota zeta.
  rewrite Ha, Hp, Ht, Hn, Hm. reflexivity.
Qed.

Lemma format_swap_message_int_ok event w d tokens_got :
  TOKEN_DECIMALS (globals w) = VInt d ->
  0 <= d ->
  PyFloat.int_truediv (amount0Out (args event)) (10 ^ d) = Ok tokens_got ->
  PyFloat.eq_int tokens_got 0 = false ->
  format_swap_message host net event w =
  format_swap_message_buy host net event tokens_got w.
Proof.
  intros Hd Hpos Ht Hz.
  unfold format_swap_message, bind, lift, read_globals, ret.
  rewrite Hd. unfold int_pow.
  destruct (Z.leb_spec 0 d) as [_|]; [|lia].
  unfold int_truediv_num. now rewrite Ht, Hz.
Qed.

(** The example of the specification: 500 tokens, 2 ETH, 6000 USD, a unit
    price of 12 and 300 markers, on a machine that grants the string of the
    markers. *)
Lemma format_swap_message_int_example w r0 rest :
  TOKEN_DECIMALS (globals w) = VInt 18 ->
  rpc_latestRoundData net (trace w) = Reply (r0 :: 3000 * 10 ^ 8 :: rest) ->
  300 * py_len rocket <= sys_maxsize host ->
  can_allocate host (300 * py_len rocket) = true ->
  snd (format_swap_message host net example_event w) =
  Ok (Some (render (repeat_string rocket 300)
              (PyFloat.of_scaled 2 0 false) (PyFloat.of_scaled 6000 0 false)
              (PyFloat.of_scaled 500 0 false) (PyFloat.of_scaled 12 0 false)
              (hexbytes_hex (transactionHash example_event))
              (PAIR_CONTRACT_ADDRESS (globals w)))).
Proof.
  intros Hd Hprice Hfit Hmem.
  rewrite (format_swap_message_int_ok example_event w 18
             (PyFloat.of_scaled 500 0 false) Hd);
    [|lia|vm_compute; reflexivity|vm_compute; reflexivity].
  rewrite (format_swap_message_buy_ok example_event _ w
             (PyFloat.of_scaled 2 0 false) _ (3000 * 10 ^ 8)
             (PyFloat.of_scaled 3000 0 false) (PyFloat.of_scaled 12 0 false) 300
             (repeat_string rocket 300)
             eq_refl Hprice eq_refl);
    [|vm_compute; reflexivity|vm_compute; reflexivity|vm_compute; reflexivity|].
  - simpl snd. do 3 f_equal.
  - apply (str_mul_fits host rocket 300); [lia|reflexivity|exact Hfit|exact Hmem].
Qed.

(** A rendered message holds exactly [num_rockets] markers, where
    [num_rockets = max (1, int (spent_eth_usd_value // 20))]. *)
Lemma format_swap_message_markers event w w' text :
  plain (PAIR_CONTRACT_ADDRESS (globals w)) = true ->
  format_swap_message host net event w = (w', Ok (Some text)) ->
  exists spent_eth eth_price q n,
    int_truediv_num (amount1In (args event)) (NFloat PyFloat.lit_1e18)
      = Ok spent_eth /\
    snd (get_latest_eth_price net w) = Ok eth_price /\
    PyFloat.floordiv (PyFloat.mul spent_eth eth_price)
      (PyFloat.of_scaled ROCKET_EMOJI_DIVIDER 0 false) = Ok q /\
    PyFloat.to_int q = Ok n /\
    occurrences rocket text = Z.to_nat (Z.max 1 n).
Proof.
  intros Hpair.
  unfold format_swap_message, bind, lift, read_globals, ret.
  destruct (int_pow _ _ _) as [p|e]; [|discriminate].
  destruct (int_truediv_num _ p) as [tokens_got|e]; [|discriminate].
  destruct (PyFloat.eq_int _ _); [discriminate|].
  unfold format_swap_message_buy, bind, lift, read_globals, ret.
  destruct (int_truediv_num _ _) as [spent_eth|e] eqn:Hs; [|discriminate].
  pose proof (get_latest_eth_price_frame w) as Hf.
  destruct (get_latest_eth_price net w) as [w1 [eth_price|e]]; [|discriminate].
  simpl in Hf. subst w1.
  destruct (PyFloat.truediv _ _) as [token_price|e]; [|discriminate].
  unfold num_rockets_of.
  change (PyFloat.of_int ROCKET_EMOJI_DIVIDER)
    with (Ok (PyFloat.of_scaled ROCKET_EMOJI_DIVIDER 0 false)).
  unfold res_bind at 1.
  destruct (PyFloat.floordiv _ _) as [q|e] eqn:Hq; [|discriminate].
  unfold res_bind at 1.
  destruct (PyFloat.to_int q) as [n|e] eqn:Hn; [|discriminate].
  unfold res_bind. cbv beta iota.
  destruct (str_mul _ _ _) as [rockets|e] eqn:Hm; [|discriminate].
  apply str_mul_ok in Hm. subst rockets.
  simpl. intros H. injection H as _ <-.
  exists spent_eth, eth_price, q, n.
  split; [reflexivity|]. split; [reflexivity|].
  split; [exact Hq|]. split; [exact Hn|].
  apply occurrences_render. exact Hpair.
Qed.

End Formatter.

(** ** The poll *)

Section Poll.

Variable host : Platform.
Variable net : Remote.

Lemma format_swap_message_delivers_nothing event w :
  exists es,
    fst (format_swap_message host net event w) = extend w es /\
    delivered es = [].
Proof.
  destruct (format_swap_message_frame host net event w) as (es & H & [->| ->]);
    eexists; split; try exact H; reflexivity.
Qed.

(** One round of the loop only adds to the trace; when it raises, none of
    what it added is a delivered message. *)
Lemma monitor_buys_event_frame event w :
  exists es,
    fst (monitor_buys_event host net event w) = extend w es /\
    (forall e, snd (monitor_buys_event host net event w) = Raise e ->
               delivered es = []).
Proof.
  unfold monitor_buys_event, bind.
  destruct (format_swap_message_delivers_nothing event w) as (es0 & Hw & Hd).
  destruct (format_swap_message host net event w) as [w1 [[text|]|e]];
    simpl in Hw; subst w1.
  - destruct (str_truthy text).
    + unfold read_globals, send_message, logger_info. cbv beta iota zeta.
      destruct (bot_send_message net _ _) as [u|msg]; simpl.
      * eexists. split; [rewrite !record_extend, !extend_extend; reflexivity|].
        discriminate.
      * eexists. split; [rewrite !record_extend, !extend_extend; reflexivity|].
        intros _ _. rewrite delivered_app, Hd. reflexivity.
    + exists es0. split; [reflexivity|discriminate].
  - exists es0. split; [reflexivity|discriminate].
  - exists es0. split; [reflexivity|]. intros _ _. exact Hd.
Qed.

Lemma for_each_monitor_buys_event_frame events w :
  exists es,
    fst (for_each (monitor_buys_event host net) events w) = extend w es.
Proof.
  revert w. induction events as [|event events IH]; intros w; simpl.
  - exists []. unfold ret. simpl. now rewrite extend_nil.
  - unfold bind.
    destruct (monitor_buys_event_frame event w) as (es1 & H1 & _).
    destruct (monitor_buys_event host net event w) as [w1 [[]|e]];
      simpl in H1; subst w1.
    + destruct (IH (extend w es1)) as (es2 & H2).
      exists (es1 ++ es2). now rewrite H2, extend_extend.
    + now exists es1.
Qed.

Lemma monitor_buys_try_frame w :
  exists es, fst (monitor_buys_try host net w) = extend w es.
Proof.
  unfold monitor_buys_try, bind, read_globals, raise, get_new_entries.
  cbv beta iota zeta.
  destruct (event_filter (globals w)) as [f|].
  - destruct (of_reply _) as [events|e].
    + destruct (for_each_monitor_buys_event_frame events
                  (record (IoGetNewEntries f (rpc_get_new_entries net (trace w) f)) w))
        as (es & H).
      eexists. rewrite H, !record_extend, !extend_extend. reflexivity.
    + eexists. rewrite record_extend. reflexivity.
  - exists []. simpl. now rewrite extend_nil.
Qed.

Lemma monitor_buys_frame w :
  exists es, fst (monitor_buys host net w) = extend w es.
Proof.
  destruct (monitor_buys_try_frame w) as (es & Hes).
  unfold monitor_buys, try_except, logger_error.
  destruct (monitor_buys_try host net w) as [w1 [[]|e]];
    simpl in Hes; subst w1.
  - now exists es.
  - exists (es ++ [IoLog ERROR monitor_buys_error_text]).
    simpl. now rewrite record_extend, extend_extend.
Qed.

(** C6. Whatever is raised inside one invocation of the poll stays inside
    it: [monitor_buys] always returns normally; when its [try] body raises
    [e], whichever exception that is, the invocation ends by logging the
    error text (with [{e}] left as it is) after the effects the body already
    had; the globals (the handle among them) and the job queue are those of
    before, so the next tick runs as scheduled.  A missing handle raises
    [AttributeError] before anything is done, and a failing fetch raises the
    client's error: both are such failures. *)
Theorem monitor_buys_contains_failures w :
  snd (monitor_buys host net w) = Ok tt /\
  globals (fst (monitor_buys host net w)) = globals w /\
  job_queue (fst (monitor_buys host net w)) = job_queue w /\
  (forall w1 e,
     monitor_buys_try host net w = (w1, Raise e) ->
     monitor_buys host net w =
       (record (IoLog ERROR monitor_buys_error_text) w1, Ok tt)) /\
  (event_filter (globals w) = None ->
   monitor_buys_try host net w = (w, Raise AttributeError)) /\
  (forall f msg,
     event_filter (globals w) = Some f ->
     rpc_get_new_entries net (trace w) f = Fail msg ->
     monitor_buys_try host net w =
       (record (IoGetNewEntries f (Fail msg)) w, Raise (RemoteError msg))).
Proof.
  destruct (monitor_buys_try_frame w) as (es & Hes).
  unfold monitor_buys, try_except, logger_error.
  destruct (monitor_buys_try host net w) as [w1 [[]|e]] eqn:Htry;
    simpl in Hes; subst w1; simpl.
  - repeat split; try discriminate.
    + intros Hnone. revert Htry.
      unfold monitor_buys_try, bind, read_globals, raise. rewrite Hnone.
      discriminate.
    + intros f msg Hf Hfail. revert Htry.
      unfold monitor_buys_try, bind, read_globals, get_new_entries.
      rewrite Hf. cbv beta iota zeta. rewrite Hfail. discriminate.
  - repeat split.
    + intros w1 e' H. now inversion H.
    + intros Hnone. revert Htry.
      unfold monitor_buys_try, bind, read_globals, raise. now rewrite Hnone.
    + intros f msg Hf Hfail. revert Htry.
      unfold monitor_buys_try, bind, read_globals, get_new_entries.
      rewrite Hf. cbv beta iota zeta. rewrite Hfail. simpl.
      intros H. now rewrite H.
Qed.

Lemma for_each_app {A} (body : A -> M unit) l1 l2 w :
  for_each body (l1 ++ l2) w =
  match for_each body l1 w with
  | (w1, Ok _) => for_each body l2 w1
  | (w1, Raise e) => (w1, Raise e)
  end.
Proof.
  revert w. induction l1 as [|x l1 IH]; intros w; simpl; [reflexivity|].
  unfold bind. destruct (body x w) as [w1 [u|e]]; [apply IH|reflexivity].
Qed.

(** C10. The poll is not atomic in its batch.  When the node returns the
    batch [pre ++ event :: post], the events of [pre] are processed without
    an exception, and formatting or sending raises on [event], then the
    invocation ends there with the error logged: the messages delivered
    while processing [pre] stay delivered, no message is delivered for
    [event], and the events of [post] are never looked at, so the messages
    delivered by the end are exactly those delivered when [pre] was done. *)
Theorem monitor_buys_not_atomic w f pre event post w1 w2 e :
  event_filter (globals w) = Some f ->
  rpc_get_new_entries net (trace w) f = Reply (pre ++ event :: post) ->
  for_each (monitor_buys_event host net) pre
    (record (IoGetNewEntries f (Reply (pre ++ event :: post))) w) = (w1, Ok tt) ->
  monitor_buys_event host net event w1 = (w2, Raise e) ->
  monitor_buys host net w =
    (record (IoLog ERROR monitor_buys_error_text) w2, Ok tt) /\
  delivered (trace (fst (monitor_buys host net w))) = delivered (trace w1) /\
  exists ms, delivered (trace w1) = delivered (trace w) ++ ms.
Proof.
  intros Hf Hreply Hpre Hevent.
  assert (Htry : monitor_buys_try host net w = (w2, Raise e)).
  { unfold monitor_buys_try, bind, read_globals, get_new_entries.
    rewrite Hf. cbv beta iota zeta. rewrite Hreply. simpl of_reply.
    cbv beta iota zeta.
    rewrite for_each_app, Hpre. simpl. unfold bind. now rewrite Hevent. }
  assert (Hrun : monitor_buys host net w =
                 (record (IoLog ERROR monitor_buys_error_text) w2, Ok tt)).
  { unfold monitor_buys, try_except. now rewrite Htry. }
  split; [exact Hrun|]. rewrite Hrun. split.
  - destruct (monitor_buys_event_frame event w1) as (es & Hw & Hd).
    rewrite Hevent in Hw, Hd. simpl in Hw. subst w2.
    simpl. rewrite <- app_assoc, delivered_app, delivered_app.
    rewrite (Hd e eq_refl). simpl. now rewrite app_nil_r.
  - destruct (for_each_monitor_buys_event_frame pre
                (record (IoGetNewEntries f (Reply (pre ++ event :: post))) w))
      as (es & Hw).
    rewrite Hpre in Hw. simpl in Hw. subst w1.
    exists (delivered es). simpl.
    rewrite <- app_assoc, delivered_app. f_equal.
Qed.

End Poll.

(** ** The command handlers *)

Section Handlers.

Variable net : Remote.

(** [start], run to its end. *)
Lemma start_run update w id :
  rpc_new_filter net (trace w) "latest" = Reply id ->
  let chat_id := VInt (effective_chat_id update) in
  let authorized := py_eq chat_id (CHAT_ID (globals w)) in
  let text := if authorized then start_text else rejection_text in
  let m := reply_message chat_id text in
  let created := IoCreateFilter "latest" (Reply id) in
  let r := bot_send_message net (trace w ++ [created]) m in
  let g := with_event_filter (globals w)
             (Some {| filter_id := id; fromBlock := "latest" |}) in
  start net update w =
  match r with
  | Reply _ =>
      ({| globals := g;
          job_queue := if authorized
                       then job_queue w ++ [monitoring_job (jobs_created w)]
                       else job_queue w;
          jobs_created := if authorized then S (jobs_created w)
                          else jobs_created w;
          trace := trace w ++ [created; IoSendMessage m r;
                               IoLog INFO ("Function: start: " +++ text)] |},
       Ok tt)
  | Fail msg =>
      ({| globals := g;
          job_queue := job_queue w;
          jobs_created := jobs_created w;
          trace := trace w ++ [created; IoSendMessage m r] |},
       Raise (RemoteError msg))
  end.
Proof.
  intros Hid. cbv zeta.
  unfold start, bind, create_filter, set_event_filter, read_globals.
  cbv beta iota zeta. rewrite Hid. simpl res_bind. cbv beta iota zeta.
  change (CHAT_ID (globals _)) with (CHAT_ID (globals w)) at 1.
  destruct (py_eq (VInt (effective_chat_id update)) (CHAT_ID (globals w)));
    unfold send_message, run_repeating, logger_info, reply_message;
    cbv beta iota zeta;
    change (trace (record (IoCreateFilter "latest" (Reply id)) w))
      with (trace w ++ [IoCreateFilter "latest" (Reply id)]);
    destruct (bot_send_message net _ _) as [u|msg];
    unfold record, with_event_filter, monitoring_job; simpl;
    rewrite <- ?app_assoc; reflexivity.
Qed.

(** C9. In every invocation of [start] in which [create_filter] returns,
    the global [event_filter] is rebound to the filter just created, from
    block [latest], whether the chat then passes the check
    [chat_id == CHAT_ID] or not, and even when the reply cannot be sent:
    the creation is the first thing the invocation does, before the message
    whose text the check selects.  No other global is changed. *)
Theorem start_rebinds_event_filter update w id :
  rpc_new_filter net (trace w) "latest" = Reply id ->
  let w' := fst (start net update w) in
  let authorized := py_eq (VInt (effective_chat_id update)) (CHAT_ID (globals w)) in
  let text := if authorized then start_text else rejection_text in
  globals w' = with_event_filter (globals w)
                 (Some {| filter_id := id; fromBlock := "latest" |}) /\
  exists r rest,
    trace w' = trace w ++ IoCreateFilter "latest" (Reply id) ::
                 IoSendMessage (reply_message (VInt (effective_chat_id update)) text) r ::
                 rest.
Proof.
  intros Hid. cbv zeta. rewrite (start_run update w id Hid). cbv zeta.
  destruct (bot_send_message net _ _) as [u|msg]; simpl;
    (split; [reflexivity|]); do 2 eexists; reflexivity.
Qed.

(** What [start] does, by the outcome of its check, when the node creates
    the filter and Telegram accepts the reply.  When [chat_id == CHAT_ID]
    holds, it schedules exactly one job, named [monitoring_active], with
    interval 10 and first run 0, and sends the start confirmation; when the
    check fails it schedules nothing and sends the rejection.  In both
    cases it returns normally, and the one piece of state it touches
    besides is the global [event_filter], rebound to the new filter. *)
Lemma start_schedules_by_check update w id :
  rpc_new_filter net (trace w) "latest" = Reply id ->
  (forall m, bot_send_message net
               (trace w ++ [IoCreateFilter "latest" (Reply id)]) m = Reply tt) ->
  let chat_id := VInt (effective_chat_id update) in
  let w' := fst (start net update w) in
  snd (start net update w) = Ok tt /\
  globals w' = with_event_filter (globals w)
                 (Some {| filter_id := id; fromBlock := "latest" |}) /\
  if py_eq chat_id (CHAT_ID (globals w)) then
    job_queue w' = job_queue w ++ [monitoring_job (jobs_created w)] /\
    delivered (trace w') = delivered (trace w) ++ [reply_message chat_id start_text]
  else
    job_queue w' = job_queue w /\
    jobs_created w' = jobs_created w /\
    delivered (trace w') =
      delivered (trace w) ++ [reply_message chat_id rejection_text].
Proof.
  intros Hid Hsend. cbv zeta. rewrite (start_run update w id Hid). cbv zeta.
  rewrite Hsend.
  destruct (py_eq (VInt (effective_chat_id update)) (CHAT_ID (globals w))); simpl;
    rewrite delivered_app; repeat split; reflexivity.
Qed.

(** *** [stop] *)

Lemma set_job_queue_same w : set_job_queue (job_queue w) w = w.
Proof. now destruct w. Qed.

Lemma for_each_schedule_removal js w :
  for_each schedule_removal js w =
  (set_job_queue (remaining js (job_queue w)) w, Ok tt).
Proof.
  revert w. induction js as [|j js IH]; intros w; simpl.
  - unfold ret. now rewrite set_job_queue_same.
  - unfold bind, schedule_removal. rewrite IH. reflexivity.
Qed.

Lemma remaining_In js q j :
  In j (remaining js q) ->
  In j q /\ forall j', In j' js -> job_id j <> job_id j'.
Proof.
  revert q. induction js as [|j0 js IH]; intros q H; simpl in *.
  - split; [exact H|]. intros j' [].
  - apply IH in H. destruct H as [Hin Hne].
    apply filter_In in Hin. destruct Hin as [Hin Hj0].
    split; [exact Hin|].
    intros j' [<-|Hj']; [|now apply Hne].
    unfold is_not in Hj0. apply negb_true_iff, Nat.eqb_neq in Hj0. exact Hj0.
Qed.

(** After the loop of [stop] no job of that name is left. *)
Lemma remaining_no_named name q :
  filter (has_name name) (remaining (filter (has_name name) q) q) = [].
Proof.
  destruct (filter (has_name name) (remaining (filter (has_name name) q) q))
    as [|j l] eqn:H; [reflexivity|].
  assert (Hj : In j (filter (has_name name)
                       (remaining (filter (has_name name) q) q)))
    by (rewrite H; now left).
  apply filter_In in Hj. destruct Hj as [Hj Hname].
  apply remaining_In in Hj. destruct Hj as [Hq Hne].
  exfalso. apply (Hne j); [|reflexivity].
  apply filter_In. now split.
Qed.

(** An [int] never equals what [os.getenv] returned. *)
Lemma chat_never_authorized chat_id environ key :
  py_eq (VInt chat_id) (os_getenv environ key) = false.
Proof. unfold os_getenv. destruct (environ key); reflexivity. Qed.

(** [stop], run to its end. *)
Lemma stop_run update w :
  let chat_id := VInt (effective_chat_id update) in
  let authorized := py_eq chat_id (CHAT_ID (globals w)) in
  let text := if authorized then stop_text else rejection_text in
  let m := reply_message chat_id text in
  let r := bot_send_message net (trace w) m in
  let q := if authorized
           then remaining (filter (has_name job_name_active) (job_queue w))
                  (job_queue w)
           else job_queue w in
  stop net update w =
  match r with
  | Reply _ =>
      (extend (set_job_queue q w)
         [IoSendMessage m r; IoLog INFO ("Function: stop: " +++ text)], Ok tt)
  | Fail msg =>
      (extend (set_job_queue q w) [IoSendMessage m r], Raise (RemoteError msg))
  end.
Proof.
  cbv zeta. unfold stop, bind, read_globals. cbv beta iota zeta.
  destruct (py_eq (VInt (effective_chat_id update)) (CHAT_ID (globals w))).
  - unfold get_jobs_by_name. rewrite for_each_schedule_removal.
    unfold send_message, logger_info, reply_message. cbv beta iota zeta.
    change (trace (set_job_queue _ w)) with (trace w).
    destruct (bot_send_message net _ _) as [u|msg]; simpl;
      unfold record, extend; simpl; rewrite <- ?app_assoc; reflexivity.
  - rewrite set_job_queue_same.
    unfold send_message, logger_info, reply_message. cbv beta iota zeta.
    destruct (bot_send_message net _ _) as [u|msg]; simpl;
      unfold record, extend; simpl; rewrite <- ?app_assoc; reflexivity.
Qed.

(** What [stop] does, by the outcome of its check.  When
    [chat_id == CHAT_ID] holds, it removes every job registered under
    [monitoring_active] and sends the stop confirmation; when there is no
    such job the queue is left as it is and the confirmation is sent all
    the same.  When the check fails it removes nothing and sends the
    rejection.  The globals are never touched. *)
Lemma stop_removes_named_jobs update w :
  let chat_id := VInt (effective_chat_id update) in
  let w' := fst (stop net update w) in
  globals w' = globals w /\
  if py_eq chat_id (CHAT_ID (globals w)) then
    filter (has_name job_name_active) (job_queue w') = [] /\
    (filter (has_name job_name_active) (job_queue w) = [] ->
     job_queue w' = job_queue w) /\
    sent_and_logged net w w' (reply_message chat_id stop_text)
      ("Function: stop: " +++ stop_text)
  else
    job_queue w' = job_queue w /\
    sent_and_logged net w w' (reply_message chat_id rejection_text)
      ("Function: stop: " +++ rejection_text).
Proof.
  cbv zeta. rewrite (stop_run update w). cbv zeta.
  destruct (py_eq (VInt (effective_chat_id update)) (CHAT_ID (globals w))).
  - unfold sent_and_logged.
    destruct (bot_send_message net _ _) as [u|msg]; simpl;
      (split; [reflexivity|]);
      (split; [apply remaining_no_named|]);
      (split; [intros ->; reflexivity|]);
      reflexivity.
  - unfold sent_and_logged.
    destruct (bot_send_message net _ _) as [u|msg]; simpl;
      (split; [reflexivity|]); (split; [reflexivity|]);
      reflexivity.
Qed.

(** C7, on the program as it is loaded.  [CHAT_ID] is the [str] (or
    [None]) that [os.getenv] returned and the id of a chat is an [int], so
    [chat_id == CHAT_ID] is false for every chat: from the chat that the
    environment designates, as from any other, [stop] removes no job and
    answers with the rejection, not with the stop confirmation. *)
Theorem stop_rejects_every_chat environ pair f q n tr update :
  let w := running_world environ pair f q n tr in
  let w' := fst (stop net update w) in
  py_eq (VInt (effective_chat_id update)) (CHAT_ID (globals w)) = false /\
  job_queue w' = q /\
  sent_and_logged net w w'
    (reply_message (VInt (effective_chat_id update)) rejection_text)
    ("Function: stop: " +++ rejection_text).
Proof.
  cbv zeta.
  pose proof (stop_removes_named_jobs update
                (running_world environ pair f q n tr)) as H.
  cbv zeta in H.
  assert (Hno : py_eq (VInt (effective_chat_id update))
                  (CHAT_ID (globals (running_world environ pair f q n tr)))
                = false) by apply chat_never_authorized.
  rewrite Hno in H. split; [exact Hno|]. exact (proj2 H).
Qed.

(** [start] rebinds the handle at most; the loaded constants stay. *)
Lemma start_globals update w :
  exists f, globals (fst (start net update w)) = with_event_filter (globals w) f.
Proof.
  destruct (rpc_new_filter net (trace w) "latest") as [id|msg] eqn:Hid.
  - rewrite (start_run update w id Hid). cbv zeta.
    exists (Some {| filter_id := id; fromBlock := "latest" |}).
    destruct (bot_send_message net _ _); reflexivity.
  - exists (event_filter (globals w)).
    unfold start, bind, create_filter. cbv beta iota zeta. rewrite Hid.
    simpl. now destruct (globals w).
Qed.

Lemma stop_globals update w : globals (fst (stop net update w)) = globals w.
Proof.
  rewrite (stop_run update w). cbv zeta.
  destruct (bot_send_message net _ _); reflexivity.
Qed.

Lemma help_command_globals update w :
  globals (fst (help_command net update w)) = globals w.
Proof. reflexivity. Qed.

End Handlers.

(** ** The process as the module loads it *)

Section AsLoaded.

Variable host : Platform.
Variable net : Remote.
Variable environ : Environ.
Variable pair_address : string.

(** No handler rebinds [TOKEN_DECIMALS], [CHAT_ID] or the pair address:
    in every world the process reaches they are what the module body
    loaded. *)
Lemma reachable_running_world w :
  reachable host net environ pair_address w ->
  w = running_world environ pair_address (event_filter (globals w))
        (job_queue w) (jobs_created w) (trace w).
Proof.
  induction 1 as [|w w' _ IH Hstep]; [reflexivity|].
  assert (Hg : exists f, globals w' = with_event_filter (globals w) f).
  { destruct Hstep as [update w|update w|update w|w].
    - apply start_globals.
    - exists (event_filter (globals w)).
      rewrite stop_globals. now destruct (globals w).
    - exists (event_filter (globals w)).
      rewrite help_command_globals. now destruct (globals w).
    - destruct (monitor_buys_frame host net w) as (es & ->).
      exists (event_filter (globals w)). simpl. now destruct (globals w). }
  destruct Hg as (f & Hg). rewrite IH in Hg.
  destruct w' as [g' q' n' tr']. simpl in *. subst g'. reflexivity.
Qed.

(** So the formatter raises [TypeError] whenever the process calls it. *)
Lemma format_swap_message_reachable_raises event w :
  reachable host net environ pair_address w ->
  format_swap_message host net event w = (w, Raise TypeError).
Proof.
  intros Hw. rewrite (reachable_running_world w Hw).
  now apply format_swap_message_getenv with environ "TOKEN_DECIMALS".
Qed.

(** And the check of [start] and [stop] fails whenever they are called. *)
Lemma reachable_never_authorized update w :
  reachable host net environ pair_address w ->
  py_eq (VInt (effective_chat_id update)) (CHAT_ID (globals w)) = false.
Proof.
  intros Hw. rewrite (reachable_running_world w Hw).
  apply chat_never_authorized.
Qed.

(** A tick of the poll never relays a buy: on a non-empty batch it logs the
    error and gives up. *)
Lemma monitor_buys_reachable_delivers_nothing w :
  reachable host net environ pair_address w ->
  delivered (trace (fst (monitor_buys host net w))) = delivered (trace w).
Proof.
  intros Hw.
  unfold monitor_buys, try_except, monitor_buys_try, bind, read_globals,
    raise, get_new_entries, logger_error.
  cbv beta iota zeta.
  destruct (event_filter (globals w)) as [f|]; simpl.
  2:{ rewrite delivered_app. simpl. apply app_nil_r. }
  destruct (rpc_get_new_entries net (trace w) f) as [[|event events]|msg]; simpl.
  - rewrite delivered_app. simpl. apply app_nil_r.
  - unfold bind, monitor_buys_event, bind.
    assert (Hw0 : TOKEN_DECIMALS (globals
                    (record (IoGetNewEntries f (Reply (event :: events))) w)) =
                  os_getenv environ "TOKEN_DECIMALS")
      by (rewrite (reachable_running_world w Hw); reflexivity).
    rewrite (format_swap_message_getenv host net event _ environ _ Hw0).
    simpl. rewrite <- app_assoc, delivered_app. simpl. apply app_nil_r.
  - rewrite <- app_assoc, delivered_app. simpl. apply app_nil_r.
Qed.

End AsLoaded.

(** ** Further properties of the price fetch and the poll *)

Section FurtherPoll.

Variable host : Platform.
Variable net : Remote.

(** X1. [get_latest_eth_price] queries the feed exactly once, whatever
    comes back.  A failure of the call is raised as it is; an answer with
    fewer than two items raises [IndexError]; otherwise the price is the
    second item divided by [1e8], and the only other exception is the
    [OverflowError] of an item too large for a float: the division itself
    cannot fail. *)
Theorem get_latest_eth_price_outcomes w :
  let r := rpc_latestRoundData net (trace w) in
  let result := snd (get_latest_eth_price net w) in
  fst (get_latest_eth_price net w) = record (IoLatestRoundData r) w /\
  match r with
  | Fail msg => result = Raise (RemoteError msg)
  | Reply (_ :: answer :: _) =>
      match PyFloat.of_int answer with
      | Ok x => result = Ok (PyFloat.div x PyFloat.lit_1e8)
      | Raise e => e = OverflowError /\ result = Raise OverflowError
      end
  | Reply _ => result = Raise IndexError
  end.
Proof.
  cbv zeta. split; [apply get_latest_eth_price_frame|].
  unfold get_latest_eth_price, bind, latestRoundData_call, lift.
  destruct (rpc_latestRoundData net (trace w)) as [[|a0 [|answer rest]]|msg];
    try reflexivity.
  simpl. unfold PyFloat.of_int.
  destruct (PyFloat.of_scaled answer 0 false); simpl;
    rewrite ?(truediv_by_nonzero _ _ lit_1e8_not_zero); auto.
Qed.

Lemma price_queries_app es1 es2 :
  price_queries (es1 ++ es2) = (price_queries es1 + price_queries es2)%nat.
Proof.
  induction es1 as [|e es1 IH]; simpl; [reflexivity|].
  destruct e; simpl; now rewrite IH.
Qed.

Lemma send_attempts_app es1 es2 :
  send_attempts (es1 ++ es2) = (send_attempts es1 + send_attempts es2)%nat.
Proof.
  induction es1 as [|e es1 IH]; simpl; [reflexivity|].
  destruct e; simpl; now rewrite IH.
Qed.

(** A text comes with the one price query and is never empty, so that
    [if text:] only tells the [False] of a skipped event from a message. *)
Lemma format_swap_message_text event w w' text :
  format_swap_message host net event w = (w', Ok (Some text)) ->
  w' = extend w [IoLatestRoundData (rpc_latestRoundData net (trace w))] /\
  str_truthy text = true.
Proof.
  unfold format_swap_message, bind, lift, read_globals, ret.
  destruct (int_pow _ _ _) as [p|e]; [|discriminate].
  destruct (int_truediv_num _ p) as [tokens_got|e]; [|discriminate].
  destruct (PyFloat.eq_int _ _); [discriminate|].
  unfold format_swap_message_buy, bind, lift, read_globals, ret.
  destruct (int_truediv_num _ _) as [spent_eth|e]; [|discriminate].
  pose proof (get_latest_eth_price_frame net w) as Hf.
  destruct (get_latest_eth_price net w) as [w1 [eth_price|e]]; [|discriminate].
  simpl in Hf. subst w1.
  destruct (PyFloat.truediv _ _) as [token_price|e]; [|discriminate].
  destruct (num_rockets_of _) as [n|e]; [|discriminate].
  destruct (str_mul _ _ _) as [rockets|e]; [|discriminate].
  intros H. injection H as <- <-. split; reflexivity.
Qed.

Lemma format_swap_message_skip event w w' :
  format_swap_message host net event w = (w', Ok None) -> w' = w.
Proof.
  unfold format_swap_message, bind, lift, read_globals, ret.
  destruct (int_pow _ _ _) as [p|e]; [|discriminate].
  destruct (int_truediv_num _ p) as [tokens_got|e]; [|discriminate].
  destruct (PyFloat.eq_int _ _); [now intros [= <-]|].
  unfold format_swap_message_buy, bind, lift, read_globals, ret.
  destruct (int_truediv_num _ _) as [spent_eth|e]; [|discriminate].
  destruct (get_latest_eth_price net w) as [w1 [eth_price|e]]; [|discriminate].
  destruct (PyFloat.truediv _ _) as [token_price|e]; [|discriminate].
  destruct (num_rockets_of _) as [n|e]; [|discriminate].
  destruct (str_mul _ _ _); discriminate.
Qed.

Lemma loop_shape_weaken chat_id n n' es r :
  (n <= n')%nat -> loop_shape chat_id n es r -> loop_shape chat_id n' es r.
Proof.
  intros Hn (H1 & H2 & H3 & H4). repeat split; try assumption; try lia;
    now apply H4.
Qed.

Lemma monitor_buys_event_shape event w :
  exists es,
    fst (monitor_buys_event host net event w) = extend w es /\
    loop_shape (CHAT_ID (globals w)) 1 es
      (snd (monitor_buys_event host net event w)).
Proof.
  unfold monitor_buys_event, bind.
  destruct (format_swap_message host net event w) as [w1 [[text|]|e]] eqn:Hfmt.
  - apply format_swap_message_text in Hfmt. destruct Hfmt as [-> ->].
    unfold read_globals, send_message, logger_info. cbv beta iota zeta.
    destruct (bot_send_message net _ _) as [[]|msg]; simpl fst; simpl snd;
      eexists; (split; [rewrite !record_extend, !extend_extend; reflexivity|]);
      unfold loop_shape; simpl; repeat split; auto; try discriminate;
      repeat constructor.
  - apply format_swap_message_skip in Hfmt. subst w1.
    exists []. split; [simpl; now rewrite extend_nil|].
    unfold loop_shape. simpl. repeat split; auto.
  - destruct (format_swap_message_frame host net event w) as (es & Hw & Hes).
    rewrite Hfmt in Hw. simpl in Hw. subst w1.
    exists es. split; [reflexivity|].
    unfold loop_shape. destruct Hes as [-> | ->]; simpl;
      repeat split; auto; try discriminate; repeat constructor.
Qed.

Lemma for_each_loop_shape events w :
  exists es,
    fst (for_each (monitor_buys_event host net) events w) = extend w es /\
    loop_shape (CHAT_ID (globals w)) (List.length events) es
      (snd (for_each (monitor_buys_event host net) events w)).
Proof.
  revert w. induction events as [|event events IH]; intros w.
  - exists []. split; [simpl; now rewrite extend_nil|].
    unfold loop_shape. simpl. repeat split; auto.
  - simpl for_each. unfold bind.
    destruct (monitor_buys_event_shape event w) as (es1 & Hw1 & Hs1).
    destruct (monitor_buys_event host net event w) as [w1 [[]|e]];
      simpl in Hw1, Hs1; subst w1.
    + destruct (IH (extend w es1)) as (es2 & Hw2 & Hs2).
      exists (es1 ++ es2). split; [now rewrite Hw2, extend_extend|].
      destruct Hs1 as (A1 & B1 & C1 & D1). destruct (D1 eq_refl) as [D1a D1b].
      change (CHAT_ID (globals (extend w es1))) with (CHAT_ID (globals w)) in Hs2.
      destruct Hs2 as (A2 & B2 & C2 & D2).
      unfold loop_shape.
      rewrite delivered_app, length_app, price_queries_app, send_attempts_app.
      simpl List.length.
      split; [apply Forall_app; now split|].
      split; [lia|]. split; [lia|].
      intros Hr. destruct (D2 Hr). lia.
    + exists es1. split; [reflexivity|].
      apply loop_shape_weaken with 1%nat; [simpl; lia|exact Hs1].
Qed.

(** What a tick does when the handle is bound: one fetch, then the loop. *)
Lemma monitor_buys_try_fetch w f :
  event_filter (globals w) = Some f ->
  monitor_buys_try host net w =
  match rpc_get_new_entries net (trace w) f with
  | Reply batch =>
      for_each (monitor_buys_event host net) batch
        (record (IoGetNewEntries f (Reply batch)) w)
  | Fail msg =>
      (record (IoGetNewEntries f (Fail msg)) w, Raise (RemoteError msg))
  end.
Proof.
  intros Hf. unfold monitor_buys_try, bind, read_globals, get_new_entries.
  rewrite Hf. cbv beta iota zeta.
  destruct (rpc_get_new_entries net (trace w) f); reflexivity.
Qed.

(** The interactions of a tick after its fetch, with the error line when
    the loop raised. *)
Lemma monitor_buys_after_fetch w f batch :
  event_filter (globals w) = Some f ->
  rpc_get_new_entries net (trace w) f = Reply batch ->
  exists es,
    fst (monitor_buys host net w) =
      extend w (IoGetNewEntries f (Reply batch) :: es) /\
    Forall (poll_interaction (CHAT_ID (globals w))) es /\
    (send_attempts es <= price_queries es)%nat /\
    (price_queries es <= List.length batch)%nat.
Proof.
  intros Hf Hbatch.
  unfold monitor_buys, try_except.
  rewrite (monitor_buys_try_fetch w f Hf), Hbatch.
  destruct (for_each_loop_shape batch
              (record (IoGetNewEntries f (Reply batch)) w))
    as (es & Hw & A & B & C & _).
  change (CHAT_ID (globals (record _ w))) with (CHAT_ID (globals w)) in A.
  destruct (for_each _ _ _) as [w1 [[]|e]]; simpl in Hw; subst w1.
  - exists es. simpl. rewrite record_extend, extend_extend. auto.
  - exists (es ++ [IoLog ERROR monitor_buys_error_text]).
    unfold logger_error. simpl fst.
    rewrite !record_extend, !extend_extend.
    rewrite price_queries_app, send_attempts_app. simpl.
    repeat split; auto; try lia.
    apply Forall_app. split; [exact A|]. repeat constructor.
Qed.

(** X2. A tick of the poll writes to one chat only: every [send_message]
    it issues goes to [CHAT_ID], in HTML mode and with the link preview
    disabled; and it never creates a filter. *)
Theorem monitor_buys_messages_chat_only w :
  exists es,
    fst (monitor_buys host net w) = extend w es /\
    (forall m r, In (IoSendMessage m r) es ->
       m = buy_message (CHAT_ID (globals w)) (msg_text m)) /\
    (forall from_block r, ~ In (IoCreateFilter from_block r) es).
Proof.
  destruct (event_filter (globals w)) as [f|] eqn:Hf.
  - destruct (rpc_get_new_entries net (trace w) f) as [batch|msg] eqn:Hbatch.
    + destruct (monitor_buys_after_fetch w f batch Hf Hbatch)
        as (es & Hw & A & _).
      exists (IoGetNewEntries f (Reply batch) :: es).
      split; [exact Hw|]. rewrite Forall_forall in A. split.
      * intros m r [H|H]; [discriminate|]. exact (A _ H).
      * intros from_block r [H|H]; [discriminate|]. exact (A _ H).
    + exists [IoGetNewEntries f (Fail msg); IoLog ERROR monitor_buys_error_text].
      unfold monitor_buys, try_except.
      rewrite (monitor_buys_try_fetch w f Hf), Hbatch.
      split; [unfold logger_error; simpl fst;
              rewrite !record_extend, extend_extend; reflexivity|].
      split; [intros m r [H|[H|[]]]; discriminate|].
      intros from_block r [H|[H|[]]]; discriminate.
  - exists [IoLog ERROR monitor_buys_error_text].
    unfold monitor_buys, try_except, monitor_buys_try, bind, read_globals, raise.
    rewrite Hf. split; [reflexivity|].
    split; [intros m r [H|[]]; discriminate|].
    intros from_block r [H|[]]; discriminate.
Qed.

(** X3. A tick fetches the new entries once, queries the price feed at
    most once per event of the batch (there is no cache), and sends at most
    one message per price query. *)
Theorem monitor_buys_call_bounds w f batch :
  event_filter (globals w) = Some f ->
  rpc_get_new_entries net (trace w) f = Reply batch ->
  exists es,
    fst (monitor_buys host net w) =
      extend w (IoGetNewEntries f (Reply batch) :: es) /\
    (forall f' r, ~ In (IoGetNewEntries f' r) es) /\
    (price_queries es <= List.length batch)%nat /\
    (send_attempts es <= price_queries es)%nat.
Proof.
  intros Hf Hbatch.
  destruct (monitor_buys_after_fetch w f batch Hf Hbatch)
    as (es & Hw & A & B & C).
  exists es. split; [exact Hw|]. split; [|now split].
  rewrite Forall_forall in A. intros f' r H. exact (A _ H).
Qed.

(** X4. When the body of the poll completes without an exception, every
    event it priced was relayed: the accepted messages of the tick are as
    many as its [send_message] calls and as its price queries, the other
    events of the batch being the skipped ones. *)
Theorem monitor_buys_clean_run w w' :
  monitor_buys_try host net w = (w', Ok tt) ->
  exists es,
    w' = extend w es /\
    List.length (delivered es) = price_queries es /\
    send_attempts es = price_queries es.
Proof.
  intros Hrun.
  destruct (event_filter (globals w)) as [f|] eqn:Hf.
  2:{ revert Hrun. unfold monitor_buys_try, bind, read_globals, raise.
      rewrite Hf. discriminate. }
  rewrite (monitor_buys_try_fetch w f Hf) in Hrun.
  destruct (rpc_get_new_entries net (trace w) f) as [batch|msg];
    [|discriminate].
  destruct (for_each_loop_shape batch
              (record (IoGetNewEntries f (Reply batch)) w))
    as (es & Hw & _ & _ & _ & D).
  rewrite Hrun in Hw, D. simpl in Hw, D. destruct (D eq_refl) as [D1 D2].
  exists (IoGetNewEntries f (Reply batch) :: es).
  rewrite Hw, record_extend, extend_extend. simpl. auto.
Qed.

(** X5. On an empty batch a tick does nothing but the fetch: no price
    query, no message, no log line. *)
Theorem monitor_buys_empty_batch w f :
  event_filter (globals w) = Some f ->
  rpc_get_new_entries net (trace w) f = Reply [] ->
  monitor_buys host net w = (record (IoGetNewEntries f (Reply [])) w, Ok tt).
Proof.
  intros Hf Hbatch. unfold monitor_buys, try_except.
  now rewrite (monitor_buys_try_fetch w f Hf), Hbatch.
Qed.

(** A tick with a bound handle begins by asking the node about it. *)
Lemma monitor_buys_fetch_first w f :
  event_filter (globals w) = Some f ->
  exists rest,
    fst (monitor_buys host net w) =
      extend w (IoGetNewEntries f (rpc_get_new_entries net (trace w) f) :: rest).
Proof.
  intros Hf.
  destruct (rpc_get_new_entries net (trace w) f) as [batch|msg] eqn:Hbatch.
  - destruct (monitor_buys_after_fetch w f batch Hf Hbatch) as (es & Hw & _).
    now exists es.
  - exists [IoLog ERROR monitor_buys_error_text].
    unfold monitor_buys, try_except.
    rewrite (monitor_buys_try_fetch w f Hf), Hbatch.
    unfold logger_error. simpl fst.
    now rewrite !record_extend, extend_extend.
Qed.

End FurtherPoll.

(** ** Further properties of the formatter *)

Section FurtherFormatter.

Variable host : Platform.
Variable net : Remote.

(** X18. A call of the formatter that returns has asked the price feed
    exactly once when it returns a text and not at all when it skips the
    event; and the text is never empty, so that the test [if text:] of the
    poll drops skipped events only. *)
Theorem format_swap_message_price_queries event w w' r :
  format_swap_message host net event w = (w', Ok r) ->
  match r with
  | None => w' = w
  | Some text =>
      w' = extend w [IoLatestRoundData (rpc_latestRoundData net (trace w))] /\
      str_truthy text = true
  end.
Proof.
  destruct r as [text|]; intros H.
  - now apply format_swap_message_text with host event.
  - now apply format_swap_message_skip with host net event.
Qed.

Lemma of_int_raises z e : PyFloat.of_int z = Raise e -> e = OverflowError.
Proof.
  unfold PyFloat.of_int.
  destruct (PyFloat.of_scaled z 0 false); intros H; now inversion H.
Qed.

Lemma to_int_raises x e :
  PyFloat.to_int x = Raise e -> e = ValueError \/ e = OverflowError.
Proof. destruct x; simpl; intros H; inversion H; auto. Qed.

Lemma int_truediv_num_float_raises a y e :
  PyFloat.is_zero y = false ->
  int_truediv_num a (NFloat y) = Raise e -> e = OverflowError.
Proof.
  intros Hy. unfold int_truediv_num, res_bind.
  destruct (PyFloat.of_int a) as [x|e'] eqn:Hx.
  - now rewrite truediv_by_nonzero.
  - intros H. inversion H. subst. now apply of_int_raises with a.
Qed.

Lemma get_latest_eth_price_raises w e :
  snd (get_latest_eth_price net w) = Raise e ->
  e = OverflowError \/ e = IndexError \/ exists msg, e = RemoteError msg.
Proof.
  unfold get_latest_eth_price, bind, latestRoundData_call, lift.
  destruct (rpc_latestRoundData net (trace w)) as [latest_price|msg].
  2:{ simpl. intros H. inversion H. right. right. now exists msg. }
  unfold of_reply, tuple_item.
  destruct (nth_error latest_price 1) as [answer|].
  2:{ simpl. intros H. inversion H. auto. }
  cbn [snd]. intros H. left.
  now apply (int_truediv_num_float_raises _ _ _ lit_1e8_not_zero H).
Qed.

(** X19. Past its early return the formatter raises nothing but: the
    failure of the price-feed call, the [IndexError] of a price answer with
    fewer than two items, the [OverflowError] of an amount or a price too
    large for a float, the exception of [int] on a
    [spent_eth_usd_value // 20] that is not finite ([ValueError] for a
    NaN), and the [OverflowError] or [MemoryError] of a string of markers
    too long for the machine. *)
Theorem format_swap_message_buy_exceptions event tokens_got w e :
  PyFloat.eq_int tokens_got 0 = false ->
  snd (format_swap_message_buy host net event tokens_got w) = Raise e ->
  e = OverflowError \/ e = ValueError \/ e = IndexError \/
  e = MemoryError \/ exists msg, e = RemoteError msg.
Proof.
  intros Hguard. rewrite eq_int_zero in Hguard.
  unfold format_swap_message_buy, bind, lift, read_globals, ret.
  destruct (int_truediv_num _ _) as [spent_eth|e1] eqn:Hs.
  2:{ simpl. intros H. inversion H. subst. left.
      now apply (int_truediv_num_float_raises _ _ _ lit_1e18_not_zero Hs). }
  pose proof (get_latest_eth_price_raises w) as Hprice.
  destruct (get_latest_eth_price net w) as [w1 [eth_price|e1]].
  2:{ simpl in *. intros H. inversion H. subst.
      destruct (Hprice e eq_refl) as [H1|[H1|H1]]; auto. }
  rewrite truediv_by_nonzero by assumption.
  unfold num_rockets_of.
  destruct divider_float as (d & -> & Hd). unfold res_bind at 1.
  unfold PyFloat.floordiv. rewrite Hd. unfold res_bind at 1.
  destruct (PyFloat.to_int _) as [n|e1] eqn:Hn; unfold res_bind.
  2:{ simpl. intros H. inversion H. subst.
      apply to_int_raises in Hn. destruct Hn as [-> | ->]; auto. }
  destruct (str_mul _ _ _) as [rockets|e1] eqn:Hm; simpl; [discriminate|].
  intros H. inversion H. subst.
  apply str_mul_raises in Hm. destruct Hm as [-> | ->]; auto.
Qed.

(** X20. A message the formatter returns holds at least one marker, and
    exactly [num_rockets = max (1, int (spent_eth_usd_value // 20))] of
    them, where [spent_eth_usd_value] is [amount1In / 1e18] times the
    fetched price (the pair address being a plain ASCII string). *)
Theorem format_swap_message_marker_count event w w' text :
  plain (PAIR_CONTRACT_ADDRESS (globals w)) = true ->
  format_swap_message host net event w = (w', Ok (Some text)) ->
  exists spent_eth eth_price num_rockets,
    int_truediv_num (amount1In (args event)) (NFloat PyFloat.lit_1e18)
      = Ok spent_eth /\
    snd (get_latest_eth_price net w) = Ok eth_price /\
    num_rockets_of (PyFloat.mul spent_eth eth_price) = Ok num_rockets /\
    1 <= num_rockets /\
    occurrences rocket text = Z.to_nat num_rockets.
Proof.
  intros Hpair Hfmt.
  destruct (format_swap_message_markers host net event w w' text Hpair Hfmt)
    as (spent_eth & eth_price & q & n & Hs & Hp & Hq & Hn & Hocc).
  exists spent_eth, eth_price, (Z.max 1 n).
  repeat split; auto; [|lia].
  unfold num_rockets_of.
  change (PyFloat.of_int ROCKET_EMOJI_DIVIDER)
    with (Ok (PyFloat.of_scaled ROCKET_EMOJI_DIVIDER 0 false)).
  unfold res_bind at 1. rewrite Hq. unfold res_bind at 1. now rewrite Hn.
Qed.

(** X21. With a non-negative integer in [TOKEN_DECIMALS], the loop of the
    poll passes over an event whose [amount0Out] is 0 without a trace: no
    price query, no message, no log line. *)
Theorem monitor_buys_event_skips_zero event w d :
  TOKEN_DECIMALS (globals w) = VInt d ->
  0 <= d ->
  amount0Out (args event) = 0 ->
  monitor_buys_event host net event w = (w, Ok tt).
Proof.
  intros Hd Hpos Hout. unfold monitor_buys_event, bind.
  now rewrite (format_swap_message_int_skips_zero host net event w d
                 Hd Hpos Hout).
Qed.

End FurtherFormatter.

(** ** Further properties of the command handlers *)

Section FurtherHandlers.

Variable host : Platform.
Variable net : Remote.

(** X6. When the node cannot create the filter, [start] ends on the
    client's exception before anything else: the handle, the job queue and
    the chat are left as they were, whoever asked. *)
Theorem start_filter_failure update w msg :
  rpc_new_filter net (trace w) "latest" = Fail msg ->
  start net update w =
  (record (IoCreateFilter "latest" (Fail msg)) w, Raise (RemoteError msg)).
Proof.
  intros Hid. unfold start, bind, create_filter.
  cbv beta iota zeta. now rewrite Hid.
Qed.

Lemma start_filter_failure_world update w msg :
  rpc_new_filter net (trace w) "latest" = Fail msg ->
  fst (start net update w) = record (IoCreateFilter "latest" (Fail msg)) w.
Proof.
  intros Hid. unfold start, bind, create_filter.
  cbv beta iota zeta. now rewrite Hid.
Qed.

(** X7. When the filter is created but Telegram refuses the reply, [start]
    ends on that exception with the handle already rebound and no job
    scheduled, even for a chat that passes the check: the poll is not
    started although the cursor has moved. *)
Theorem start_reply_failure update w id msg :
  rpc_new_filter net (trace w) "latest" = Reply id ->
  (forall m, bot_send_message net
               (trace w ++ [IoCreateFilter "latest" (Reply id)]) m = Fail msg) ->
  snd (start net update w) = Raise (RemoteError msg) /\
  event_filter (globals (fst (start net update w))) =
    Some {| filter_id := id; fromBlock := "latest" |} /\
  job_queue (fst (start net update w)) = job_queue w /\
  jobs_created (fst (start net update w)) = jobs_created w.
Proof.
  intros Hid Hsend. rewrite (start_run net update w id Hid). cbv zeta.
  rewrite Hsend. repeat split.
Qed.

(** X8. There is no guard against a second [start]: two in a row from a
    chat that passes the check leave two monitoring jobs in the queue, with
    distinct ids, and the handle bound to the filter of the second, the
    first filter being dropped. *)
Theorem start_twice update w id1 id2 :
  py_eq (VInt (effective_chat_id update)) (CHAT_ID (globals w)) = true ->
  (forall tr m, bot_send_message net tr m = Reply tt) ->
  rpc_new_filter net (trace w) "latest" = Reply id1 ->
  rpc_new_filter net (trace (fst (start net update w))) "latest" = Reply id2 ->
  let w2 := fst (start net update (fst (start net update w))) in
  job_queue w2 =
    job_queue w ++ [monitoring_job (jobs_created w);
                    monitoring_job (S (jobs_created w))] /\
  event_filter (globals w2) = Some {| filter_id := id2; fromBlock := "latest" |}.
Proof.
  intros Hauth Hsend Hid1 Hid2. cbv zeta.
  rewrite (start_run net update _ id2 Hid2). cbv zeta. rewrite Hsend.
  clear Hid2. pose proof (start_run net update w id1 Hid1) as H1.
  cbv zeta in H1. rewrite Hsend, Hauth in H1. rewrite H1.
  cbn [globals CHAT_ID with_event_filter job_queue jobs_created trace fst].
  rewrite Hauth. split; [now rewrite <- app_assoc|reflexivity].
Qed.

(** *** What [stop] removes *)

Lemma filter_filter_and {A} (f g : A -> bool) l :
  filter f (filter g l) = filter (fun x => g x && f x) l.
Proof.
  induction l as [|x l IH]; simpl; [reflexivity|].
  destruct (g x); simpl; [destruct (f x)|]; now rewrite IH.
Qed.

Lemma remaining_filter js q :
  remaining js q =
  filter (fun j => negb (existsb (fun j' => Nat.eqb (job_id j) (job_id j')) js)) q.
Proof.
  revert q. induction js as [|j0 js IH]; intros q; simpl.
  - induction q as [|j q IHq]; simpl; [reflexivity|now rewrite <- IHq].
  - rewrite IH, filter_filter_and. apply filter_ext.
    intros j. unfold is_not. now rewrite negb_orb.
Qed.

Lemma job_id_injective q j j' :
  NoDup (map job_id q) -> In j q -> In j' q -> job_id j = job_id j' -> j = j'.
Proof.
  induction q as [|j0 q IH]; simpl; intros Hnd Hj Hj' Hid; [contradiction|].
  inversion Hnd as [|x l Hnotin Hnd']; subst.
  destruct Hj as [<-|Hj], Hj' as [<-|Hj']; auto.
  - exfalso. apply Hnotin. rewrite Hid. now apply in_map.
  - exfalso. apply Hnotin. rewrite <- Hid. now apply in_map.
Qed.

Lemma remaining_named name q :
  NoDup (map job_id q) ->
  remaining (filter (has_name name) q) q =
  filter (fun j => negb (has_name name j)) q.
Proof.
  intros Hnd. rewrite remaining_filter. apply filter_ext_in.
  intros j Hj. f_equal.
  destruct (has_name name j) eqn:Hname.
  - apply existsb_exists. exists j. split; [|apply Nat.eqb_refl].
    apply filter_In. now split.
  - apply not_true_is_false. intros H.
    apply existsb_exists in H. destruct H as (j' & Hj' & Hid).
    apply filter_In in Hj'. destruct Hj' as [Hj' Hname'].
    apply Nat.eqb_eq in Hid.
    rewrite (job_id_injective q j j' Hnd Hj Hj' Hid) in Hname. congruence.
Qed.

Lemma stop_job_queue update w :
  job_queue (fst (stop net update w)) =
  if py_eq (VInt (effective_chat_id update)) (CHAT_ID (globals w))
  then remaining (filter (has_name job_name_active) (job_queue w)) (job_queue w)
  else job_queue w.
Proof.
  rewrite (stop_run net update w). cbv zeta.
  destruct (bot_send_message net _ _); reflexivity.
Qed.

(** X9. On the branch where the check holds, [stop] removes the jobs named
    [monitoring_active] and only them: the jobs of the queue being distinct
    objects, those of any other name stay, in their order. *)
Theorem stop_removes_exactly update w :
  py_eq (VInt (effective_chat_id update)) (CHAT_ID (globals w)) = true ->
  NoDup (map job_id (job_queue w)) ->
  job_queue (fst (stop net update w)) =
  filter (fun j => negb (has_name job_name_active j)) (job_queue w).
Proof.
  intros Hauth Hnd. rewrite stop_job_queue, Hauth.
  now apply remaining_named.
Qed.

(** X10. A second [stop] from the same chat changes nothing in the queue:
    the first one left no job for it to remove. *)
Theorem stop_twice update w :
  job_queue (fst (stop net update (fst (stop net update w)))) =
  job_queue (fst (stop net update w)).
Proof.
  rewrite (stop_job_queue update (fst (stop net update w))).
  rewrite (stop_globals net update w).
  destruct (py_eq (VInt (effective_chat_id update)) (CHAT_ID (globals w)))
    eqn:Hauth; [|reflexivity].
  rewrite (stop_job_queue update w), Hauth.
  now rewrite remaining_no_named.
Qed.

(** X11. The removal does not wait for the reply: when the check holds
    and Telegram refuses the confirmation, [stop] ends on that exception
    with the monitoring jobs already removed. *)
Theorem stop_reply_failure update w msg :
  py_eq (VInt (effective_chat_id update)) (CHAT_ID (globals w)) = true ->
  bot_send_message net (trace w)
    (reply_message (VInt (effective_chat_id update)) stop_text) = Fail msg ->
  snd (stop net update w) = Raise (RemoteError msg) /\
  filter (has_name job_name_active) (job_queue (fst (stop net update w))) = [].
Proof.
  intros Hauth Hsend. rewrite (stop_run net update w). cbv zeta.
  rewrite Hauth, Hsend. split; [reflexivity|]. simpl.
  apply remaining_no_named.
Qed.

(** X12. [stop] does not release the subscription: after a [start] that
    created a filter and a [stop], from whichever chats, the global
    [event_filter] is still bound to that filter; and when the [stop] passed
    the check no monitoring job is left to poll it. *)
Theorem start_then_stop update update' w id :
  rpc_new_filter net (trace w) "latest" = Reply id ->
  let w2 := fst (stop net update' (fst (start net update w))) in
  event_filter (globals w2) = Some {| filter_id := id; fromBlock := "latest" |} /\
  (py_eq (VInt (effective_chat_id update')) (CHAT_ID (globals w)) = true ->
   filter (has_name job_name_active) (job_queue w2) = []).
Proof.
  intros Hid. cbv zeta.
  assert (Hg : globals (fst (start net update w)) =
               with_event_filter (globals w)
                 (Some {| filter_id := id; fromBlock := "latest" |})).
  { rewrite (start_run net update w id Hid). cbv zeta.
    destruct (bot_send_message net _ _); reflexivity. }
  split.
  - now rewrite stop_globals, Hg.
  - intros Hauth. rewrite stop_job_queue, Hg.
    cbn [CHAT_ID with_event_filter]. rewrite Hauth.
    apply remaining_no_named.
Qed.

(** X13. The poll follows the latest [start]: once a [start] has created a
    filter, from whichever chat, the next tick begins by asking the node for
    the new entries of that filter. *)
Theorem start_then_monitor_buys update w id :
  rpc_new_filter net (trace w) "latest" = Reply id ->
  let w1 := fst (start net update w) in
  let f := {| filter_id := id; fromBlock := "latest" |} in
  exists rest,
    fst (monitor_buys host net w1) =
    extend w1 (IoGetNewEntries f (rpc_get_new_entries net (trace w1) f) :: rest).
Proof.
  intros Hid. cbv zeta. apply monitor_buys_fetch_first.
  rewrite (start_run net update w id Hid). cbv zeta.
  destruct (bot_send_message net _ _); reflexivity.
Qed.

(** *** What every handler keeps *)

Lemma with_event_filter_same g : with_event_filter g (event_filter g) = g.
Proof. now destruct g. Qed.

(** The world after [start], in all its outcomes. *)
Lemma start_cases update w :
  let chat_id := VInt (effective_chat_id update) in
  let authorized := py_eq chat_id (CHAT_ID (globals w)) in
  exists f q n es,
    fst (start net update w) =
      {| globals := with_event_filter (globals w) f;
         job_queue := q; jobs_created := n; trace := trace w ++ es |} /\
    (f = event_filter (globals w) \/
     exists id, f = Some {| filter_id := id; fromBlock := "latest" |}) /\
    ((q = job_queue w /\ n = jobs_created w) \/
     (authorized = true /\
      q = job_queue w ++ [monitoring_job (jobs_created w)] /\
      n = S (jobs_created w))) /\
    (delivered es = [] \/
     delivered es =
       [reply_message chat_id
          (if authorized then start_text else rejection_text)]).
Proof.
  cbv zeta.
  destruct (rpc_new_filter net (trace w) "latest") as [id|msg] eqn:Hid.
  - rewrite (start_run net update w id Hid). cbv zeta.
    destruct (bot_send_message net _ _) as [[]|msg];
      destruct (py_eq (VInt (effective_chat_id update)) (CHAT_ID (globals w)));
      simpl fst; do 4 eexists;
      (split; [reflexivity|]); (split; [right; eexists; reflexivity|]);
      (split; [auto|]); simpl; auto.
  - rewrite (start_filter_failure_world update w msg Hid).
    exists (event_filter (globals w)), (job_queue w), (jobs_created w),
      [IoCreateFilter "latest" (Fail msg)].
    rewrite with_event_filter_same. repeat split; auto.
Qed.

(** C1, on the program as it is loaded.  [CHAT_ID] is the [str] (or
    [None]) that [os.getenv] returned and the id of a chat is an [int], so
    [chat_id == CHAT_ID] is false for every chat: from the chat that the
    environment designates, as from any other, [start] schedules no job
    and answers with the rejection, not with the start confirmation (or,
    when [create_filter] raises, ends there without an answer). *)
Theorem start_rejects_every_chat environ pair f q n tr update :
  let w := running_world environ pair f q n tr in
  let w' := fst (start net update w) in
  py_eq (VInt (effective_chat_id update)) (CHAT_ID (globals w)) = false /\
  job_queue w' = q /\
  jobs_created w' = n /\
  match rpc_new_filter net tr "latest" with
  | Reply id =>
      sent_and_logged net (record (IoCreateFilter "latest" (Reply id)) w) w'
        (reply_message (VInt (effective_chat_id update)) rejection_text)
        ("Function: start: " +++ rejection_text)
  | Fail msg => w' = record (IoCreateFilter "latest" (Fail msg)) w
  end.
Proof.
  cbv zeta.
  assert (Hno : py_eq (VInt (effective_chat_id update))
                  (CHAT_ID (globals (running_world environ pair f q n tr)))
                = false) by apply chat_never_authorized.
  split; [exact Hno|].
  change (trace (running_world environ pair f q n tr)) with tr.
  destruct (rpc_new_filter net tr "latest") as [id|msg] eqn:Hid.
  - rewrite (start_run net update (running_world environ pair f q n tr) id Hid).
    cbv zeta. rewrite Hno. unfold sent_and_logged.
    change (trace (record (IoCreateFilter "latest" (Reply id))
                     (running_world environ pair f q n tr)))
      with (tr ++ [IoCreateFilter "latest" (Reply id)]).
    change (trace (running_world environ pair f q n tr)) with tr.
    destruct (bot_send_message net _ _) as [u|msg]; simpl;
      rewrite <- app_assoc; repeat split; reflexivity.
  - rewrite (start_filter_failure_world update
               (running_world environ pair f q n tr) msg Hid).
    repeat split; reflexivity.
Qed.

(** The world after [stop], in all its outcomes. *)
Lemma stop_cases update w :
  let chat_id := VInt (effective_chat_id update) in
  let authorized := py_eq chat_id (CHAT_ID (globals w)) in
  exists es,
    fst (stop net update w) =
      {| globals := globals w;
         job_queue := job_queue (fst (stop net update w));
         jobs_created := jobs_created w; trace := trace w ++ es |} /\
    (delivered es = [] \/
     delivered es =
       [reply_message chat_id
          (if authorized then stop_text else rejection_text)]).
Proof.
  cbv zeta. rewrite (stop_run net update w). cbv zeta.
  destruct (bot_send_message net _ _) as [[]|msg]; simpl fst;
    eexists; (split; [reflexivity|]); simpl; auto.
Qed.

Lemma NoDup_snoc {A} (l : list A) a : NoDup l -> ~ In a l -> NoDup (l ++ [a]).
Proof.
  induction l as [|x l IH]; simpl; intros Hnd Hnot.
  - constructor; [intros []|constructor].
  - inversion Hnd as [|y l' Hx Hl]; subst. constructor.
    + intros Hin. apply in_app_or in Hin. destruct Hin as [Hin|[<-|[]]]; auto.
    + apply IH; auto.
Qed.

Lemma NoDup_map_filter {A B} (g : A -> B) (keep : A -> bool) l :
  NoDup (map g l) -> NoDup (map g (filter keep l)).
Proof.
  induction l as [|x l IH]; simpl; intros Hnd; [constructor|].
  inversion Hnd as [|y l' Hx Hl]; subst.
  destruct (keep x); simpl; [|now apply IH].
  constructor; [|now apply IH].
  intros Hin. apply Hx. apply in_map_iff in Hin.
  destruct Hin as (z & Hz & Hin). apply filter_In in Hin.
  apply in_map_iff. exists z. tauto.
Qed.

Lemma jobs_wf_filter keep w q n :
  jobs_wf w -> q = filter keep (job_queue w) -> n = jobs_created w ->
  NoDup (map job_id q) /\ Forall (fun j => (job_id j < n)%nat) q.
Proof.
  intros [Hnd Hlt] -> ->. split; [now apply NoDup_map_filter|].
  rewrite Forall_forall in *. intros j Hj. apply filter_In in Hj.
  now apply Hlt.
Qed.

(** X14. The job queue stays well formed through every handler: the jobs
    keep distinct ids, all below the number of jobs created so far, so a job
    [stop] marks for removal is never confused with another. *)
Theorem handler_step_jobs_wf w w' :
  handler_step host net w w' -> jobs_wf w -> jobs_wf w'.
Proof.
  intros Hstep Hwf. destruct Hstep as [update w|update w|update w|w].
  - destruct (start_cases update w) as (f & q & n & es & -> & _ & Hq & _).
    unfold jobs_wf. cbn [job_queue jobs_created].
    destruct Hq as [[-> ->]|(_ & -> & ->)]; [exact Hwf|].
    destruct Hwf as [Hnd Hlt]. split.
    + rewrite map_app. simpl. apply NoDup_snoc; [exact Hnd|].
      intros Hin. apply in_map_iff in Hin. destruct Hin as (j & Hid & Hj).
      rewrite Forall_forall in Hlt. specialize (Hlt j Hj). lia.
    + apply Forall_app. split.
      * eapply Forall_impl; [|exact Hlt]. simpl. intros j Hj. lia.
      * repeat constructor.
  - unfold jobs_wf. rewrite stop_job_queue.
    assert (Hn : jobs_created (fst (stop net update w)) = jobs_created w).
    { rewrite (stop_run net update w). cbv zeta.
      destruct (bot_send_message net _ _); reflexivity. }
    rewrite Hn.
    destruct (py_eq _ _); [|exact Hwf].
    rewrite remaining_filter.
    exact (jobs_wf_filter _ w _ _ Hwf eq_refl eq_refl).
  - exact Hwf.
  - destruct (monitor_buys_frame host net w) as (es & ->). exact Hwf.
Qed.

(** X15. Through every handler the history only grows, the names bound by
    the module body keep their values, and the subscription handle, once
    bound, is never unbound: only [start] writes it, and only to bind a new
    filter. *)
Theorem handler_step_keeps w w' :
  handler_step host net w w' ->
  (exists es, trace w' = trace w ++ es) /\
  same_constants (globals w) (globals w') /\
  (jobs_created w <= jobs_created w')%nat /\
  (event_filter (globals w) <> None -> event_filter (globals w') <> None).
Proof.
  intros Hstep. destruct Hstep as [update w|update w|update w|w].
  - destruct (start_cases update w) as (f & q & n & es & -> & Hf & Hq & _).
    cbn [globals trace jobs_created]. split; [now exists es|].
    split; [repeat split|]. split.
    + destruct Hq as [[_ ->]|(_ & _ & ->)]; lia.
    + destruct Hf as [->|(id & ->)]; [auto|discriminate].
  - destruct (stop_cases update w) as (es & Hw & _).
    rewrite Hw. cbn [globals trace jobs_created].
    split; [now exists es|]. repeat split; auto.
  - split; [eexists; reflexivity|]. repeat split; auto.
  - destruct (monitor_buys_frame host net w) as (es & ->).
    split; [now exists es|]. repeat split; auto.
Qed.

End FurtherHandlers.

(** ** Further properties of the process as the module loads it *)

Section FurtherAsLoaded.

Variable host : Platform.
Variable net : Remote.
Variable environ : Environ.
Variable pair_address : string.

(** X16. As the module loads [CHAT_ID], no [start] ever passes the check,
    so the job queue of the process stays empty: the poll is never
    scheduled, whatever commands arrive and from whichever chats. *)
Theorem reachable_job_queue_empty w :
  reachable host net environ pair_address w -> job_queue w = [].
Proof.
  induction 1 as [|w w' Hw IH Hstep]; [reflexivity|].
  destruct Hstep as [update w|update w|update w|w].
  - destruct (start_cases net update w) as (f & q & n & es & -> & _ & Hq & _).
    cbn [job_queue].
    destruct Hq as [[-> _]|(Hauth & _)]; [exact IH|].
    rewrite (reachable_never_authorized host net environ pair_address
               update w Hw) in Hauth. discriminate.
  - rewrite stop_job_queue.
    now rewrite (reachable_never_authorized host net environ pair_address
                   update w Hw).
  - exact IH.
  - destruct (monitor_buys_frame host net w) as (es & ->). exact IH.
Qed.

(** X17. As the module loads its configuration, the only texts the process
    ever gets delivered are the rejection and the help: no buy message, no
    start or stop confirmation. *)
Theorem reachable_delivered_texts w :
  reachable host net environ pair_address w ->
  Forall (fun m => msg_text m = rejection_text \/ msg_text m = help_text)
    (delivered (trace w)).
Proof.
  induction 1 as [|w w' Hw IH Hstep]; [constructor|].
  destruct Hstep as [update w|update w|update w|w].
  - destruct (start_cases net update w) as (f & q & n & es & -> & _ & _ & Hd).
    cbn [trace]. rewrite delivered_app. apply Forall_app. split; [exact IH|].
    rewrite (reachable_never_authorized host net environ pair_address
               update w Hw) in Hd.
    destruct Hd as [-> | ->]; [constructor|].
    constructor; [now left|constructor].
  - destruct (stop_cases net update w) as (es & -> & Hd).
    cbn [trace]. rewrite delivered_app. apply Forall_app. split; [exact IH|].
    rewrite (reachable_never_authorized host net environ pair_address
               update w Hw) in Hd.
    destruct Hd as [-> | ->]; [constructor|].
    constructor; [now left|constructor].
  - unfold help_command, send_message. cbv beta iota zeta. simpl fst.
    cbn [trace record]. rewrite delivered_app. apply Forall_app.
    split; [exact IH|].
    destruct (bot_send_message net _ _); simpl;
      [constructor; [now right|constructor]|constructor].
  - now rewrite (monitor_buys_reachable_delivers_nothing host net environ
                   pair_address w Hw).
Qed.

End FurtherAsLoaded.

(** ** The statements at concrete inputs *)

Lemma format_swap_message_deterministic_witness :
  TOKEN_DECIMALS (globals converted_world) =
    TOKEN_DECIMALS (globals (extend converted_world [IoLog INFO "tick"])) /\
  PAIR_CONTRACT_ADDRESS (globals converted_world) =
    PAIR_CONTRACT_ADDRESS (globals (extend converted_world [IoLog INFO "tick"])) /\
  snd (get_latest_eth_price example_net converted_world) =
    snd (get_latest_eth_price flaky_net
           (extend converted_world [IoLog INFO "tick"])) /\
  snd (format_swap_message example_host example_net example_event converted_world) =
  snd (format_swap_message example_host flaky_net example_event
         (extend converted_world [IoLog INFO "tick"])).
Proof.
  assert (H1 : TOKEN_DECIMALS (globals converted_world) =
    TOKEN_DECIMALS (globals (extend converted_world [IoLog INFO "tick"])))
    by reflexivity.
  assert (H2 : PAIR_CONTRACT_ADDRESS (globals converted_world) =
    PAIR_CONTRACT_ADDRESS (globals (extend converted_world [IoLog INFO "tick"])))
    by reflexivity.
  assert (H3 : snd (get_latest_eth_price example_net converted_world) =
    snd (get_latest_eth_price flaky_net
           (extend converted_world [IoLog INFO "tick"])))
    by reflexivity.
  refine (conj H1 (conj H2 (conj H3 _))).
  exact (proj1 (format_swap_message_deterministic example_host example_net
                  flaky_net example_event converted_world
                  (extend converted_world [IoLog INFO "tick"]) H1 H2 H3)).
Defined.

Lemma format_swap_message_buy_no_zero_division_witness :
  PyFloat.eq_int (PyFloat.of_scaled 500 0 false) 0 = false /\
  snd (format_swap_message_buy example_host example_net example_event
         (PyFloat.of_scaled 500 0 false) converted_world)
    <> Raise ZeroDivisionError.
Proof.
  assert (H : PyFloat.eq_int (PyFloat.of_scaled 500 0 false) 0 = false)
    by (vm_compute; reflexivity).
  split; [exact H|].
  exact (proj2 (format_swap_message_buy_no_zero_division example_host example_net
                  example_event (PyFloat.of_scaled 500 0 false)
                  converted_world H)).
Defined.

Lemma format_swap_message_positive_raises_witness :
  0 < amount0Out (args example_event) /\
  format_swap_message example_host example_net example_event polling_world =
    (polling_world, Raise TypeError).
Proof.
  assert (H : 0 < amount0Out (args example_event)) by (vm_compute; reflexivity).
  split; [exact H|].
  exact (proj1 (format_swap_message_positive_raises example_host example_net
                  example_environ example_pair (Some example_filter)
                  [monitoring_job 0] 1 [IoCreateFilter "latest" (Reply 7)]
                  example_event H)).
Defined.

Lemma monitor_buys_contains_failures_witness :
  event_filter (globals example_world) = None /\
  monitor_buys example_host example_net example_world =
    (record (IoLog ERROR monitor_buys_error_text) example_world, Ok tt).
Proof.
  assert (H : event_filter (globals example_world) = None) by reflexivity.
  split; [exact H|].
  destruct (monitor_buys_contains_failures example_host example_net example_world)
    as (_ & _ & _ & Hcaught & Hnone & _).
  exact (Hcaught _ _ (Hnone H)).
Defined.

Lemma monitor_buys_not_atomic_witness :
  let batch := [example_event; example_event] in
  let w0 := record (IoGetNewEntries example_filter (Reply batch)) converted_world in
  let w1 := fst (monitor_buys_event example_host flaky_net example_event w0) in
  let w2 := fst (monitor_buys_event example_host flaky_net example_event w1) in
  event_filter (globals converted_world) = Some example_filter /\
  rpc_get_new_entries flaky_net (trace converted_world) example_filter =
    Reply ([example_event] ++ example_event :: []) /\
  for_each (monitor_buys_event example_host flaky_net) [example_event] w0 =
    (w1, Ok tt) /\
  monitor_buys_event example_host flaky_net example_event w1 =
    (w2, Raise (RemoteError "Timed out")) /\
  List.length (delivered (trace w1)) = 1%nat /\
  delivered (trace (fst (monitor_buys example_host flaky_net converted_world))) =
    delivered (trace w1).
Proof.
  intros batch w0 w1 w2.
  assert (H1 : event_filter (globals converted_world) = Some example_filter)
    by reflexivity.
  assert (H2 : rpc_get_new_entries flaky_net (trace converted_world)
                 example_filter = Reply ([example_event] ++ example_event :: []))
    by reflexivity.
  assert (H3 : for_each (monitor_buys_event example_host flaky_net)
                 [example_event] w0 = (w1, Ok tt))
    by (vm_compute; reflexivity).
  assert (H4 : monitor_buys_event example_host flaky_net example_event w1 =
                 (w2, Raise (RemoteError "Timed out")))
    by (vm_compute; reflexivity).
  assert (H5 : List.length (delivered (trace w1)) = 1%nat)
    by (vm_compute; reflexivity).
  refine (conj H1 (conj H2 (conj H3 (conj H4 (conj H5 _))))).
  exact (proj1 (proj2 (monitor_buys_not_atomic example_host flaky_net
                  converted_world example_filter [example_event] example_event
                  [] w1 w2 (RemoteError "Timed out") H1 H2 H3 H4))).
Defined.

Lemma start_rebinds_event_filter_witness :
  rpc_new_filter example_net (trace example_world) "latest" = Reply 7 /\
  globals (fst (start example_net other_chat example_world)) =
    with_event_filter (globals example_world) (Some example_filter).
Proof.
  assert (H : rpc_new_filter example_net (trace example_world) "latest" = Reply 7)
    by reflexivity.
  split; [exact H|].
  exact (proj1 (start_rebinds_event_filter example_net other_chat
                  example_world 7 H)).
Defined.

(** The process of the examples, as loaded: a [stop] from the chat that
    [CHAT_ID] designates leaves the monitoring job in the queue and is
    answered with the rejection; so is a [start], which schedules nothing. *)
Example stop_from_designated_chat :
  job_queue (fst (stop example_net designated_chat polling_world)) =
    [monitoring_job 0] /\
  delivered (trace (fst (stop example_net designated_chat polling_world))) =
    [reply_message (VInt (-1001234567890)) rejection_text].
Proof. split; reflexivity. Qed.

Example start_from_designated_chat :
  job_queue (fst (start example_net designated_chat example_world)) = [] /\
  delivered (trace (fst (start example_net designated_chat example_world))) =
    [reply_message (VInt (-1001234567890)) rejection_text].
Proof. split; reflexivity. Qed.

(** The same process with the batch of two buys: the first event raises,
    the tick logs the error, and no message leaves. *)
Example monitor_buys_as_loaded :
  monitor_buys example_host flaky_net polling_world =
    (extend polling_world
       [IoGetNewEntries example_filter (Reply [example_event; example_event]);
        IoLog ERROR monitor_buys_error_text], Ok tt).
Proof. reflexivity. Qed.

(** A buy too large for its markers: with 10^13 ETH in at a price of 3000
    the count is 1.5 * 10^15, a string the machine of the examples does not
    grant; with 10^17 ETH in the count no longer fits [sys.maxsize]. *)
Example format_swap_message_buy_too_many_markers :
  snd (format_swap_message_buy example_host example_net
         (swap_event (500 * 10 ^ 18) (10 ^ 31))
         (PyFloat.of_scaled 500 0 false) converted_world) =
    Raise MemoryError /\
  snd (format_swap_message_buy example_host example_net
         (swap_event (500 * 10 ^ 18) (10 ^ 35))
         (PyFloat.of_scaled 500 0 false) converted_world) =
    Raise OverflowError.
Proof. split; vm_compute; reflexivity. Qed.

(** C9, as the specification states it, fails: an invocation of [start]
    does not always rebind [event_filter].  When the node is down,
    [create_filter] raises, [start] ends there, and the handle is what it
    was (here [None], in the process just loaded): no filter is bound. *)
Lemma start_node_down_keeps_event_filter :
  event_filter (globals (fst (start down_net designated_chat example_world))) =
    event_filter (globals example_world) /\
  ~ exists f,
      event_filter (globals (fst (start down_net designated_chat example_world))) =
        Some f.
Proof.
  split; [reflexivity|].
  intros (f & Hf). vm_compute in Hf. discriminate Hf.
Qed.

(** ** The further statements at concrete inputs *)

Lemma monitor_buys_call_bounds_witness :
  event_filter (globals converted_world) = Some example_filter /\
  rpc_get_new_entries steady_net (trace converted_world) example_filter =
    Reply [example_event; swap_event 0 (5 * 10 ^ 18)] /\
  exists es,
    fst (monitor_buys example_host steady_net converted_world) =
      extend converted_world
        (IoGetNewEntries example_filter
           (Reply [example_event; swap_event 0 (5 * 10 ^ 18)]) :: es) /\
    (forall f' r, ~ In (IoGetNewEntries f' r) es) /\
    (price_queries es <= 2)%nat /\
    (send_attempts es <= price_queries es)%nat.
Proof.
  assert (H1 : event_filter (globals converted_world) = Some example_filter)
    by reflexivity.
  assert (H2 : rpc_get_new_entries steady_net (trace converted_world)
                 example_filter =
               Reply [example_event; swap_event 0 (5 * 10 ^ 18)])
    by reflexivity.
  refine (conj H1 (conj H2 _)).
  exact (monitor_buys_call_bounds example_host steady_net converted_world
           example_filter _ H1 H2).
Defined.

Lemma monitor_buys_clean_run_witness :
  let w' := fst (monitor_buys_try example_host steady_net converted_world) in
  monitor_buys_try example_host steady_net converted_world = (w', Ok tt) /\
  exists es,
    w' = extend converted_world es /\
    List.length (delivered es) = price_queries es /\
    send_attempts es = price_queries es.
Proof.
  intros w'.
  assert (H : monitor_buys_try example_host steady_net converted_world =
              (w', Ok tt)) by (vm_compute; reflexivity).
  refine (conj H _).
  exact (monitor_buys_clean_run example_host steady_net converted_world w' H).
Defined.

Lemma monitor_buys_empty_batch_witness :
  event_filter (globals polling_world) = Some example_filter /\
  rpc_get_new_entries example_net (trace polling_world) example_filter =
    Reply [] /\
  monitor_buys example_host example_net polling_world =
    (record (IoGetNewEntries example_filter (Reply [])) polling_world, Ok tt).
Proof.
  assert (H1 : event_filter (globals polling_world) = Some example_filter)
    by reflexivity.
  assert (H2 : rpc_get_new_entries example_net (trace polling_world)
                 example_filter = Reply []) by reflexivity.
  refine (conj H1 (conj H2 _)).
  exact (monitor_buys_empty_batch example_host example_net polling_world
           example_filter H1 H2).
Defined.

Lemma start_filter_failure_witness :
  rpc_new_filter down_net (trace example_world) "latest" =
    Fail "Connection refused" /\
  start down_net designated_chat example_world =
    (record (IoCreateFilter "latest" (Fail "Connection refused")) example_world,
     Raise (RemoteError "Connection refused")).
Proof.
  assert (H : rpc_new_filter down_net (trace example_world) "latest" =
              Fail "Connection refused") by reflexivity.
  refine (conj H _).
  exact (start_filter_failure down_net designated_chat example_world _ H).
Defined.

Lemma start_reply_failure_witness :
  rpc_new_filter mute_net (trace converted_world) "latest" = Reply 7 /\
  (forall m, bot_send_message mute_net
               (trace converted_world ++ [IoCreateFilter "latest" (Reply 7)]) m
             = Fail "Forbidden") /\
  snd (start mute_net designated_chat converted_world) =
    Raise (RemoteError "Forbidden") /\
  job_queue (fst (start mute_net designated_chat converted_world)) =
    job_queue converted_world.
Proof.
  assert (H1 : rpc_new_filter mute_net (trace converted_world) "latest" = Reply 7)
    by reflexivity.
  assert (H2 : forall m, bot_send_message mute_net
               (trace converted_world ++ [IoCreateFilter "latest" (Reply 7)]) m
             = Fail "Forbidden") by (intros m; reflexivity).
  refine (conj H1 (conj H2 (conj _ _))).
  - exact (proj1 (start_reply_failure mute_net designated_chat converted_world
                    7 _ H1 H2)).
  - exact (proj1 (proj2 (proj2 (start_reply_failure mute_net designated_chat
                                  converted_world 7 _ H1 H2)))).
Defined.

Lemma start_twice_witness :
  py_eq (VInt (effective_chat_id designated_chat))
    (CHAT_ID (globals converted_world)) = true /\
  (forall tr m, bot_send_message example_net tr m = Reply tt) /\
  rpc_new_filter example_net (trace converted_world) "latest" = Reply 7 /\
  rpc_new_filter example_net
    (trace (fst (start example_net designated_chat converted_world)))
    "latest" = Reply 7 /\
  job_queue (fst (start example_net designated_chat
                    (fst (start example_net designated_chat converted_world)))) =
    [monitoring_job 0; monitoring_job 1; monitoring_job 2].
Proof.
  assert (H1 : py_eq (VInt (effective_chat_id designated_chat))
                 (CHAT_ID (globals converted_world)) = true) by reflexivity.
  assert (H2 : forall tr m, bot_send_message example_net tr m = Reply tt)
    by (intros tr m; reflexivity).
  assert (H3 : rpc_new_filter example_net (trace converted_world) "latest" =
               Reply 7) by reflexivity.
  assert (H4 : rpc_new_filter example_net
                 (trace (fst (start example_net designated_chat converted_world)))
                 "latest" = Reply 7) by reflexivity.
  refine (conj H1 (conj H2 (conj H3 (conj H4 _)))).
  exact (proj1 (start_twice example_net designated_chat converted_world 7 7
                  H1 H2 H3 H4)).
Defined.

Lemma stop_removes_exactly_witness :
  py_eq (VInt (effective_chat_id designated_chat))
    (CHAT_ID (globals mixed_world)) = true /\
  NoDup (map job_id (job_queue mixed_world)) /\
  job_queue (fst (stop example_net designated_chat mixed_world)) =
    filter (fun j => negb (has_name job_name_active j)) (job_queue mixed_world).
Proof.
  assert (H1 : py_eq (VInt (effective_chat_id designated_chat))
                 (CHAT_ID (globals mixed_world)) = true) by reflexivity.
  assert (H2 : NoDup (map job_id (job_queue mixed_world))).
  { simpl. repeat constructor; simpl; intuition discriminate. }
  refine (conj H1 (conj H2 _)).
  exact (stop_removes_exactly example_net designated_chat mixed_world H1 H2).
Defined.

Lemma stop_reply_failure_witness :
  py_eq (VInt (effective_chat_id designated_chat))
    (CHAT_ID (globals converted_world)) = true /\
  bot_send_message mute_net (trace converted_world)
    (reply_message (VInt (effective_chat_id designated_chat)) stop_text) =
    Fail "Forbidden" /\
  snd (stop mute_net designated_chat converted_world) =
    Raise (RemoteError "Forbidden") /\
  filter (has_name job_name_active)
    (job_queue (fst (stop mute_net designated_chat converted_world))) = [].
Proof.
  assert (H1 : py_eq (VInt (effective_chat_id designated_chat))
                 (CHAT_ID (globals converted_world)) = true) by reflexivity.
  assert (H2 : bot_send_message mute_net (trace converted_world)
                 (reply_message (VInt (effective_chat_id designated_chat))
                    stop_text) = Fail "Forbidden") by reflexivity.
  refine (conj H1 (conj H2 _)).
  exact (stop_reply_failure mute_net designated_chat converted_world _ H1 H2).
Defined.

Lemma start_then_stop_witness :
  rpc_new_filter example_net (trace example_world) "latest" = Reply 7 /\
  event_filter (globals (fst (stop example_net other_chat
                                (fst (start example_net other_chat
                                        example_world))))) =
    Some example_filter.
Proof.
  assert (H : rpc_new_filter example_net (trace example_world) "latest" =
              Reply 7) by reflexivity.
  refine (conj H _).
  exact (proj1 (start_then_stop example_net other_chat other_chat
                  example_world 7 H)).
Defined.

Lemma start_then_monitor_buys_witness :
  rpc_new_filter example_net (trace example_world) "latest" = Reply 7 /\
  exists rest,
    fst (monitor_buys example_host example_net
           (fst (start example_net other_chat example_world))) =
    extend (fst (start example_net other_chat example_world))
      (IoGetNewEntries example_filter
         (rpc_get_new_entries example_net
            (trace (fst (start example_net other_chat example_world)))
            example_filter) :: rest).
Proof.
  assert (H : rpc_new_filter example_net (trace example_world) "latest" =
              Reply 7) by reflexivity.
  refine (conj H _).
  exact (start_then_monitor_buys example_host example_net other_chat
           example_world 7 H).
Defined.

Lemma handler_step_jobs_wf_witness :
  handler_step example_host example_net converted_world
    (fst (start example_net designated_chat converted_world)) /\
  jobs_wf converted_world /\
  jobs_wf (fst (start example_net designated_chat converted_world)).
Proof.
  assert (H1 : handler_step example_host example_net converted_world
                 (fst (start example_net designated_chat converted_world)))
    by constructor.
  assert (H2 : jobs_wf converted_world).
  { split; simpl; repeat constructor; simpl; auto. }
  refine (conj H1 (conj H2 _)).
  exact (handler_step_jobs_wf example_host example_net _ _ H1 H2).
Defined.

Lemma handler_step_keeps_witness :
  handler_step example_host example_net polling_world
    (fst (stop example_net designated_chat polling_world)) /\
  same_constants (globals polling_world)
    (globals (fst (stop example_net designated_chat polling_world))).
Proof.
  assert (H : handler_step example_host example_net polling_world
                (fst (stop example_net designated_chat polling_world)))
    by constructor.
  refine (conj H _).
  exact (proj1 (proj2 (handler_step_keeps example_host example_net _ _ H))).
Defined.

Lemma reachable_job_queue_empty_witness :
  reachable example_host example_net example_environ example_pair
    (fst (start example_net designated_chat example_world)) /\
  job_queue (fst (start example_net designated_chat example_world)) = [].
Proof.
  assert (H : reachable example_host example_net example_environ example_pair
                (fst (start example_net designated_chat example_world))).
  { apply reachable_step with example_world; constructor. }
  refine (conj H _).
  exact (reachable_job_queue_empty example_host example_net example_environ
           example_pair _ H).
Defined.

Lemma reachable_delivered_texts_witness :
  reachable example_host example_net example_environ example_pair
    (fst (stop example_net designated_chat
            (fst (start example_net designated_chat example_world)))) /\
  Forall (fun m => msg_text m = rejection_text \/ msg_text m = help_text)
    (delivered (trace (fst (stop example_net designated_chat
            (fst (start example_net designated_chat example_world)))))).
Proof.
  assert (H : reachable example_host example_net example_environ example_pair
                (fst (stop example_net designated_chat
                   (fst (start example_net designated_chat example_world))))).
  { eapply reachable_step; [|constructor].
    apply reachable_step with example_world; constructor. }
  refine (conj H _).
  exact (reachable_delivered_texts example_host example_net example_environ
           example_pair _ H).
Defined.

Lemma format_swap_message_price_queries_witness :
  let w' := fst (format_swap_message example_host example_net example_event
                   converted_world) in
  let text := match snd (format_swap_message example_host example_net
                           example_event converted_world) with
              | Ok (Some text) => text
              | _ => EmptyString
              end in
  format_swap_message example_host example_net example_event converted_world =
    (w', Ok (Some text)) /\
  w' = extend converted_world
         [IoLatestRoundData (rpc_latestRoundData example_net
                               (trace converted_world))] /\
  str_truthy text = true.
Proof.
  intros w' text.
  assert (H : format_swap_message example_host example_net example_event
                converted_world = (w', Ok (Some text)))
    by (vm_compute; reflexivity).
  refine (conj H _).
  exact (format_swap_message_price_queries example_host example_net
           example_event converted_world w' (Some text) H).
Defined.

Lemma format_swap_message_buy_exceptions_witness :
  PyFloat.eq_int (PyFloat.of_scaled 500 0 false) 0 = false /\
  snd (format_swap_message_buy small_host example_net example_event
         (PyFloat.of_scaled 500 0 false) converted_world) =
    Raise MemoryError /\
  (MemoryError = OverflowError \/
   MemoryError = ValueError \/
   MemoryError = IndexError \/
   MemoryError = MemoryError \/
   exists msg, MemoryError = RemoteError msg).
Proof.
  assert (H1 : PyFloat.eq_int (PyFloat.of_scaled 500 0 false) 0 = false)
    by (vm_compute; reflexivity).
  assert (H2 : snd (format_swap_message_buy small_host example_net example_event
                      (PyFloat.of_scaled 500 0 false) converted_world) =
               Raise MemoryError)
    by (vm_compute; reflexivity).
  refine (conj H1 (conj H2 _)).
  exact (format_swap_message_buy_exceptions small_host example_net example_event _
           converted_world _ H1 H2).
Defined.

Lemma format_swap_message_marker_count_witness :
  let w' := fst (format_swap_message example_host example_net example_event
                   converted_world) in
  let text := match snd (format_swap_message example_host example_net
                           example_event converted_world) with
              | Ok (Some text) => text
              | _ => EmptyString
              end in
  plain (PAIR_CONTRACT_ADDRESS (globals converted_world)) = true /\
  format_swap_message example_host example_net example_event converted_world =
    (w', Ok (Some text)) /\
  exists spent_eth eth_price num_rockets,
    int_truediv_num (amount1In (args example_event)) (NFloat PyFloat.lit_1e18)
      = Ok spent_eth /\
    snd (get_latest_eth_price example_net converted_world) = Ok eth_price /\
    num_rockets_of (PyFloat.mul spent_eth eth_price) = Ok num_rockets /\
    1 <= num_rockets /\
    occurrences rocket text = Z.to_nat num_rockets.
Proof.
  intros w' text.
  assert (H1 : plain (PAIR_CONTRACT_ADDRESS (globals converted_world)) = true)
    by reflexivity.
  assert (H2 : format_swap_message example_host example_net example_event
                 converted_world = (w', Ok (Some text)))
    by (vm_compute; reflexivity).
  refine (conj H1 (conj H2 _)).
  exact (format_swap_message_marker_count example_host example_net
           example_event converted_world w' text H1 H2).
Defined.

Lemma monitor_buys_event_skips_zero_witness :
  TOKEN_DECIMALS (globals converted_world) = VInt 18 /\
  0 <= 18 /\
  amount0Out (args (swap_event 0 (5 * 10 ^ 18))) = 0 /\
  monitor_buys_event example_host example_net (swap_event 0 (5 * 10 ^ 18))
    converted_world = (converted_world, Ok tt).
Proof.
  assert (H1 : TOKEN_DECIMALS (globals converted_world) = VInt 18)
    by reflexivity.
  assert (H2 : 0 <= 18) by lia.
  assert (H3 : amount0Out (args (swap_event 0 (5 * 10 ^ 18))) = 0)
    by reflexivity.
  refine (conj H1 (conj H2 (conj H3 _))).
  exact (monitor_buys_event_skips_zero example_host example_net _
           converted_world 18 H1 H2 H3).
Defined.
